(** * rust-image-worker: the request validator and the cache-aside
    orchestrator of [src/worker/worker.js], embedded in Rocq.

    The worker receives an HTTP request, validates its query string into a
    parameter object ([getParams]), and on success fetches the origin image,
    hands it to the WebAssembly routine [process_image] and caches both the
    transformed response and the origin response ([handleRequest]).

    Conventions of the embedding.
    - A JavaScript string is a [string]; each [ascii] stands for one code
      unit below 256 (Latin-1).  Code units above 255 are outside the model.
    - A JavaScript number is a [number]: NaN, the two infinities, or a finite
      value kept as an exact rational.  JavaScript rounds a parsed literal to
      the nearest binary64 value; rounding is monotone and fixes the constants
      the worker compares with (-1, 0, 1, 10, 40, 100), so every comparison of
      the source has the same outcome on the exact value.  Negative zero is
      identified with zero (no operation of the worker tells them apart).
    - A thrown exception is the [Throw] case of [result]; its payload is the
      text [e.toString()] would give.
    - The platform (URL parser, [fetch], the wasm module) is a record of
      functions, [Platform]; the Cache API is a finite store. *)

From Stdlib Require Import String Ascii List ZArith QArith Bool Lia.
From Stdlib.Strings Require Import Byte.
Import ListNotations.
Local Open Scope string_scope.
Local Open Scope Z_scope.

Set Implicit Arguments.

(** ** JavaScript numbers *)

Inductive number : Type :=
| NaN
| PosInfinity
| NegInfinity
| Fin (q : Q).

Definition ofZ (z : Z) : number := Fin (inject_Z z).

(** The abstract relational comparison: [None] is the "undefined" outcome
    that any comparison involving NaN produces. *)
Definition compare (a b : number) : option comparison :=
  match a, b with
  | NaN, _ | _, NaN => None
  | PosInfinity, PosInfinity => Some Eq
  | NegInfinity, NegInfinity => Some Eq
  | NegInfinity, _ => Some Lt
  | _, NegInfinity => Some Gt
  | PosInfinity, _ => Some Gt
  | _, PosInfinity => Some Lt
  | Fin p, Fin q => Some (Qcompare p q)
  end.

(** [a < b], [a > b], [a <= b], [a >= b] of JavaScript. *)
Definition lt (a b : number) : bool :=
  match compare a b with Some Lt => true | _ => false end.
Definition gt (a b : number) : bool := lt b a.
Definition le (a b : number) : bool :=
  match compare a b with Some Lt | Some Eq => true | _ => false end.
Definition ge (a b : number) : bool := le b a.

(** ToBoolean on a number: NaN and zero are falsy. *)
Definition truthy (a : number) : bool :=
  match a with
  | NaN => false
  | Fin q => negb (Qeq_bool q 0)
  | _ => true
  end.

Definition isNaN (a : number) : bool :=
  match a with NaN => true | _ => false end.

(** ** JavaScript strings *)

Definition code (c : ascii) : N := N_of_ascii c.

Definition between (lo hi : N) (c : ascii) : bool :=
  ((lo <=? code c) && (code c <=? hi))%N.

(** [String.prototype.toLowerCase] on code units below 256: the ASCII
    capitals and the Latin-1 capitals U+00C0..U+00DE (U+00D7, the
    multiplication sign, excepted) move up by 32.  Above 255 lower-casing
    can change the number of code units (U+0130 becomes two), so whatever
    the worker decides on a lower-cased string is stated below on
    [toLowerCase v], never on [v]. *)
Definition lowerChar (c : ascii) : ascii :=
  if between 65 90 c || (between 192 222 c && negb (code c =? 215)%N)
  then ascii_of_N (code c + 32)
  else c.

Fixpoint toLowerCase (s : string) : string :=
  match s with
  | EmptyString => EmptyString
  | String c r => String (lowerChar c) (toLowerCase r)
  end.

(** [s.slice(0, n)]. *)
Definition slice0 (n : nat) (s : string) : string := substring 0 n s.

(** [arr.join(sep)] on an array of strings. *)
Fixpoint join (sep : string) (l : list string) : string :=
  match l with
  | [] => ""
  | [x] => x
  | x :: r => x ++ sep ++ join sep r
  end.

(** [arr.includes(x)] on an array of strings. *)
Definition includes (l : list string) (x : string) : bool :=
  existsb (String.eqb x) l.

(** White space and line terminators that [parseInt] and [parseFloat] skip:
    TAB, LF, VT, FF, CR, SP and NBSP are the ones below 256. *)
Definition isStrWhiteSpaceChar (c : ascii) : bool :=
  between 9 13 c || (code c =? 32)%N || (code c =? 160)%N.

Fixpoint trimStart (s : string) : string :=
  match s with
  | String c r => if isStrWhiteSpaceChar c then trimStart r else s
  | EmptyString => EmptyString
  end.

(** The value of a code unit as a digit: 0-9, then a-z and A-Z for 10-35. *)
Definition digitValue (c : ascii) : option N :=
  if between 48 57 c then Some (code c - 48)%N
  else if between 97 122 c then Some (code c - 87)%N
  else if between 65 90 c then Some (code c - 55)%N
  else None.

(** The digits of the longest prefix of [s] made of radix-[R] digits. *)
Fixpoint radixDigits (R : N) (s : string) : list N :=
  match s with
  | EmptyString => []
  | String c r =>
      match digitValue c with
      | Some d => if (d <? R)%N then d :: radixDigits R r else []
      | None => []
      end
  end.

Definition mathInt (R : N) (ds : list N) : Z :=
  fold_left (fun acc d => acc * Z.of_N R + Z.of_N d) ds 0.

Definition stripSign (s : string) : Z * string :=
  match s with
  | String "-" r => (-1, r)
  | String "+" r => (1, r)
  | _ => (1, s)
  end.

Definition stripHexPrefix (s : string) : option string :=
  match s with
  | String "0" (String "x" r) => Some r
  | String "0" (String "X" r) => Some r
  | _ => None
  end.

(** [parseInt(s, radix)]: leading white space, an optional sign, an optional
    [0x] when the radix is 16 (or 0), then the longest run of digits; NaN when
    that run is empty. *)
Definition parseInt (s : string) (radix : N) : number :=
  let '(sign, S1) := stripSign (trimStart s) in
  if negb (radix =? 0)%N && ((radix <? 2)%N || (36 <? radix)%N) then NaN
  else
    let strip := (radix =? 0)%N || (radix =? 16)%N in
    let '(R, S2) :=
      match (if strip then stripHexPrefix S1 else None) with
      | Some r => (16%N, r)
      | None => ((if (radix =? 0)%N then 10 else radix)%N, S1)
      end in
    match radixDigits R S2 with
    | [] => NaN
    | ds => ofZ (sign * mathInt R ds)
    end.

Definition isDigit (c : ascii) : bool := between 48 57 c.

(** The decimal digits [s] starts with, and what follows them. *)
Fixpoint spanDigits (s : string) : list N * string :=
  match s with
  | EmptyString => ([], EmptyString)
  | String c r =>
      if isDigit c
      then let '(ds, rest) := spanDigits r in ((code c - 48)%N :: ds, rest)
      else ([], s)
  end.

(** The exponent part [e], [e+], [e-] followed by digits, when [s] starts
    with a complete one; otherwise there is no exponent part. *)
Definition exponentPart (s : string) : Z :=
  match s with
  | String c r =>
      if (code c =? 101)%N || (code c =? 69)%N then
        let '(sg, r') := stripSign r in
        match fst (spanDigits r') with
        | [] => 0
        | ds => sg * mathInt 10 ds
        end
      else 0
  | EmptyString => 0
  end.

(** The number [sign * ds * 10^e], exactly. *)
Definition decimalValue (sign : Z) (ds : list N) (e : Z) : number :=
  let m := sign * mathInt 10 ds in
  if 0 <=? e then Fin (inject_Z (m * 10 ^ e))
  else Fin (Qred (m # Z.to_pos (10 ^ (- e)))).

(** [parseFloat(s)]: leading white space, an optional sign, then the longest
    prefix that is [Infinity] or a decimal literal (digits, an optional
    fraction, an optional exponent); NaN when there is none. *)
Definition parseFloat (s : string) : number :=
  let '(sign, S1) := stripSign (trimStart s) in
  if prefix "Infinity" S1 then (if sign <? 0 then NegInfinity else PosInfinity)
  else
    let '(ip, r1) := spanDigits S1 in
    let '(fp, r2) :=
      match r1 with
      | String "." r => spanDigits r
      | _ => ([], r1)
      end in
    match (ip ++ fp)%list with
    | [] => NaN
    | ds => decimalValue sign ds (exponentPart r2 - Z.of_nat (List.length fp))
    end.

(** [a === b] on numbers: NaN is not equal to anything, itself included. *)
Definition strictEquals (a b : number) : bool :=
  match compare a b with Some Eq => true | _ => false end.

(** ** Exceptions *)

Inductive result (A : Type) : Type :=
| Ok (a : A)
| Throw (e : string).
Arguments Ok {A} a.
Arguments Throw {A} e.

Definition bind {A B : Type} (m : result A) (k : A -> result B) : result B :=
  match m with
  | Ok a => k a
  | Throw e => Throw e
  end.

Notation "x <- m ;; k" := (bind m (fun x => k))
  (at level 61, m at next level, right associativity).

(** ** URLs, requests and responses *)

(** [URLSearchParams]: the decoded name-value pairs of the query, in order. *)
Module URLSearchParams.
Definition t := list (string * string).

Definition has (sp : t) (name : string) : bool :=
  existsb (fun p => String.eqb (fst p) name) sp.

(** The first value under [name], or [None] for JavaScript's null. *)
Fixpoint get (sp : t) (name : string) : option string :=
  match sp with
  | [] => None
  | (k, v) :: r => if String.eqb k name then Some v else get r name
  end.
End URLSearchParams.

(** A parsed URL.  The query is kept as the pairs [searchParams] iterates. *)
Record URL : Type := {
  protocol : string;
  host : string;
  pathname : string;
  searchParams : URLSearchParams.t;
  hash : string
}.

(** A request holds a URL that has already been parsed: [new URL(req.url)]
    re-parses a serialisation and cannot fail. *)
Record Request : Type := {
  method : string;
  url : URL;
  reqHeaders : list (string * string)
}.

(** [new Request(u.toString(), req)]: the URL is replaced, all else is
    taken from [req]. *)
Definition new_Request (u : URL) (req : Request) : Request :=
  {| method := method req; url := u; reqHeaders := reqHeaders req |}.

Inductive Body : Type :=
| TextBody (s : string)
| BytesBody (b : list byte).

Record Response : Type := {
  status : Z;
  body : Body;
  headers : list (string * string)
}.

(** [new Response(body, { status })]: a string body comes with the default
    content type of text, a byte body with none. *)
Definition new_Response (b : Body) (st : Z) : Response :=
  {| status := st;
     body := b;
     headers := match b with
                | TextBody _ => [("content-type", "text/plain;charset=UTF-8")]
                | BytesBody _ => []
                end |}.

(** [res.headers.set(name, value)]: header names are case-insensitive and
    are kept in lower case; an existing entry is replaced. *)
Definition headers_set (name value : string) (res : Response) : Response :=
  let n := toLowerCase name in
  {| status := status res;
     body := body res;
     headers := (filter (fun h => negb (String.eqb (fst h) n)) (headers res)
                 ++ [(n, value)])%list |}.

Definition headers_get (name : string) (res : Response) : option string :=
  URLSearchParams.get (headers res) (toLowerCase name).

(** UTF-8 of a code unit below 256. *)
Definition utf8 (c : ascii) : list byte :=
  if (code c <? 128)%N then [byte_of_ascii c]
  else
    match Byte.of_N (192 + code c / 64), Byte.of_N (128 + code c mod 64) with
    | Some b1, Some b2 => [b1; b2]
    | _, _ => []
    end.

(** [await res.arrayBuffer()] as a byte array. *)
Definition arrayBuffer (res : Response) : list byte :=
  match body res with
  | BytesBody b => b
  | TextBody s => flat_map utf8 (list_ascii_of_string s)
  end.

(** ** The parameter object *)

(** The object [getParams] builds.  [origin] is the empty string ([None])
    until it is replaced by a URL object; [bg] may hold NaN entries. *)
Record Params : Type := {
  bg : list number;
  dx : number;
  dy : number;
  errors : list string;
  format : string;
  height : number;
  mode : string;
  origin : option URL;
  quality : number;
  scale : number;
  width : number
}.

(** Assignments to one property, and [errors.push].  The array [errors] and
    [params.errors] are one object, so a push is an update of the field. *)
Definition set_bg v p :=
  {| bg := v; dx := dx p; dy := dy p; errors := errors p; format := format p;
     height := height p; mode := mode p; origin := origin p;
     quality := quality p; scale := scale p; width := width p |}.
Definition set_dx v p :=
  {| bg := bg p; dx := v; dy := dy p; errors := errors p; format := format p;
     height := height p; mode := mode p; origin := origin p;
     quality := quality p; scale := scale p; width := width p |}.
Definition set_dy v p :=
  {| bg := bg p; dx := dx p; dy := v; errors := errors p; format := format p;
     height := height p; mode := mode p; origin := origin p;
     quality := quality p; scale := scale p; width := width p |}.
Definition set_errors v p :=
  {| bg := bg p; dx := dx p; dy := dy p; errors := v; format := format p;
     height := height p; mode := mode p; origin := origin p;
     quality := quality p; scale := scale p; width := width p |}.
Definition set_format v p :=
  {| bg := bg p; dx := dx p; dy := dy p; errors := errors p; format := v;
     height := height p; mode := mode p; origin := origin p;
     quality := quality p; scale := scale p; width := width p |}.
Definition set_height v p :=
  {| bg := bg p; dx := dx p; dy := dy p; errors := errors p; format := format p;
     height := v; mode := mode p; origin := origin p;
     quality := quality p; scale := scale p; width := width p |}.
Definition set_mode v p :=
  {| bg := bg p; dx := dx p; dy := dy p; errors := errors p; format := format p;
     height := height p; mode := v; origin := origin p;
     quality := quality p; scale := scale p; width := width p |}.
Definition set_origin v p :=
  {| bg := bg p; dx := dx p; dy := dy p; errors := errors p; format := format p;
     height := height p; mode := mode p; origin := v;
     quality := quality p; scale := scale p; width := width p |}.
Definition set_quality v p :=
  {| bg := bg p; dx := dx p; dy := dy p; errors := errors p; format := format p;
     height := height p; mode := mode p; origin := origin p;
     quality := v; scale := scale p; width := width p |}.
Definition set_scale v p :=
  {| bg := bg p; dx := dx p; dy := dy p; errors := errors p; format := format p;
     height := height p; mode := mode p; origin := origin p;
     quality := quality p; scale := v; width := width p |}.
Definition set_width v p :=
  {| bg := bg p; dx := dx p; dy := dy p; errors := errors p; format := format p;
     height := height p; mode := mode p; origin := origin p;
     quality := quality p; scale := scale p; width := v |}.

Definition push (msg : string) (p : Params) : Params :=
  set_errors (errors p ++ [msg])%list p.

(** ** Helpers of the worker *)

Definition VALID_FORMATS : list string := ["png"; "jpg"; "jpeg"].
Definition VALID_MODES : list string := ["fill"; "fit"; "limit"].

(** [\w] of a regular expression without flags. *)
Definition isWordChar (c : ascii) : bool :=
  between 48 57 c || between 65 90 c || between 97 122 c || (code c =? 95)%N.

Fixpoint allWord (s : string) : bool :=
  match s with
  | EmptyString => true
  | String c r => isWordChar c && allWord r
  end.

(** [s.match(/\.(\w+)$/)]: the first group of the leftmost match, that is
    the text after the first dot that is followed, up to the end of [s], by
    one or more word characters. *)
Fixpoint extMatch (s : string) : option string :=
  match s with
  | EmptyString => None
  | String c r =>
      if (code c =? 46)%N && negb (String.eqb r "") && allWord r then Some r
      else extMatch r
  end.

(** [getUrlExt], lines 169-172. *)
Definition getUrlExt (u : URL) : option string :=
  match extMatch (pathname u) with
  | Some ext => Some (toLowerCase ext)
  | None => None
  end.

(** [hexStr.split("").map(c => c + c).join("")]. *)
Fixpoint doubleChars (s : string) : string :=
  match s with
  | EmptyString => EmptyString
  | String c r => String c (String c (doubleChars r))
  end.

(** The [for] loop of [getColor], [n] iterations to go.  The body does not
    read the loop counter: every iteration parses [hexStr.slice(0, 2)].  The
    early [return] (undefined, here [None]) is guarded by [hex === NaN]. *)
Fixpoint getColor_loop (n : nat) (hexStr : string) (output : list number)
  : option (list number) :=
  match n with
  | O => Some output
  | S n' =>
      let hex := parseInt (slice0 2 hexStr) 16 in
      if strictEquals hex NaN then None
      else getColor_loop n' hexStr (output ++ [hex])%list
  end.

(** [getColor], lines 174-192; [None] is the undefined it returns when it
    falls off the end. *)
Definition getColor (hexStr : string) : option (list number) :=
  let hexStr :=
    if (String.length hexStr =? 3)%nat then doubleChars hexStr else hexStr in
  if (String.length hexStr =? 6)%nat then getColor_loop 3 hexStr []
  else None.

(** [obj[key]] among the own properties of an object literal. *)
Fixpoint ownProperty (obj : list (string * string)) (key : string)
  : option string :=
  match obj with
  | [] => None
  | (k, v) :: r => if String.eqb k key then Some v else ownProperty r key
  end.

(** [getMimeType], lines 194-201.  The argument is an entry of
    [VALID_FORMATS] or undefined ([None]); the lookup is in the object
    literal's own properties (the members it inherits from
    [Object.prototype] have names that [VALID_FORMATS] cannot supply). *)
Definition getMimeType (format : option string) : string :=
  let table := [("png", "image/png"); ("jpg", "image/jpeg")] in
  match format with
  | Some f =>
      match ownProperty table f with
      | Some m => if String.eqb m "" then "application/octet-stream" else m
      | None => "application/octet-stream"
      end
  | None => "application/octet-stream"
  end.

(** [String(v)] on a string or null. *)
Definition ToString (v : option string) : string :=
  match v with
  | Some s => s
  | None => "null"
  end.

(** A method call on [v]: a TypeError when [v] is null. *)
Definition call_toLowerCase (v : option string) : result string :=
  match v with
  | Some s => Ok (toLowerCase s)
  | None => Throw "TypeError: Cannot read properties of null (reading 'toLowerCase')"
  end.

(** ** The platform *)

(** What the worker runtime provides: the URL constructor (which throws on
    a string that is not an absolute URL), [fetch], the initialisation of the
    wasm module and its export [process_image]. *)
Record Platform : Type := {
  new_URL : string -> result URL;
  fetch : Request -> result Response;
  wasm_bindgen : result unit;
  process_image : list byte -> Params -> result (list byte)
}.

(** ** The validator *)

Definition msg_quality : string := "quality must be a number between 40 and 100".
Definition msg_origin : string := "origin must be a valid image URL".
Definition msg_width : string := "width must be a positive number".
Definition msg_height : string := "height must be a positive number".
Definition msg_size : string := "width and/or height must be provided".
Definition msg_dx : string :=
  "dx must be a number between -1.0 and 1.0 (default: 0)".
Definition msg_dy : string := "dy must be between -1.0 and 1.0 (default: 0)".
Definition msg_scale : string :=
  "scale must be a non-zero number up to 10 (default: 1)".
Definition msg_mode : string :=
  "mode must be one of " ++ join ", " VALID_MODES.
Definition msg_bg : string :=
  "bg must be a valid hex color between 000 and ffffff".
Definition msg_format (fmt : string) : string :=
  "image .extension must be one of " ++ fmt ++ " " ++ join ", " VALID_FORMATS.

(** The object of lines 66-78. *)
Definition defaults : Params :=
  {| bg := []; dx := ofZ 0; dy := ofZ 0; errors := []; format := "";
     height := ofZ 0; mode := ""; origin := None; quality := ofZ 90;
     scale := ofZ 1; width := ofZ 0 |}.

Section Validator.
Variable P : Platform.
Import URLSearchParams.

(** Lines 83-91.  [if (format)]: null and the empty string are falsy. *)
Definition readFormat (reqUrl : URL) (params : Params) : Params :=
  match getUrlExt reqUrl with
  | Some fmt =>
      if String.eqb fmt "" then params
      else
        let params := set_format fmt params in
        if negb (includes VALID_FORMATS (format params))
        then push (msg_format fmt) params
        else params
  | None => params
  end.

(** Lines 93-98. *)
Definition readQuality (sp : t) (params : Params) : Params :=
  if has sp "quality" then
    let params := set_quality (parseInt (ToString (get sp "quality")) 10) params in
    if gt (quality params) (ofZ 100) || lt (quality params) (ofZ 40)
    then push msg_quality params
    else params
  else params.

(** Lines 100-104: the constructor's exception is swallowed. *)
Definition readOrigin (sp : t) (params : Params) : Params :=
  if has sp "origin" then
    match new_URL P (ToString (get sp "origin")) with
    | Ok u => set_origin (Some u) params
    | Throw _ => params
    end
  else params.

(** Lines 106-108: the empty string is falsy, a URL object is truthy. *)
Definition checkOrigin (params : Params) : Params :=
  match origin params with
  | None => push msg_origin params
  | Some _ => params
  end.

(** Lines 110-115. *)
Definition readWidth (sp : t) (params : Params) : Params :=
  if has sp "width" then
    let params := set_width (parseInt (ToString (get sp "width")) 10) params in
    if negb (gt (width params) (ofZ (-1)))
    then push msg_width params
    else params
  else params.

(** Lines 117-122. *)
Definition readHeight (sp : t) (params : Params) : Params :=
  if has sp "height" then
    let params := set_height (parseInt (ToString (get sp "height")) 10) params in
    if negb (gt (height params) (ofZ (-1)))
    then push msg_height params
    else params
  else params.

(** Lines 124-126. *)
Definition checkSize (params : Params) : Params :=
  if negb (truthy (width params) || truthy (height params))
  then push msg_size params
  else params.

(** Lines 128-133. *)
Definition readDx (sp : t) (params : Params) : Params :=
  if has sp "dx" then
    let params := set_dx (parseFloat (ToString (get sp "dx"))) params in
    if negb (ge (dx params) (ofZ (-1)) || le (dx params) (ofZ 1))
    then push msg_dx params
    else params
  else params.

(** Lines 135-140. *)
Definition readDy (sp : t) (params : Params) : Params :=
  if has sp "dy" then
    let params := set_dy (parseFloat (ToString (get sp "dy"))) params in
    if negb (ge (dy params) (ofZ (-1)) || le (dy params) (ofZ 1))
    then push msg_dy params
    else params
  else params.

(** Lines 142-147. *)
Definition readScale (sp : t) (params : Params) : Params :=
  if has sp "scale" then
    let params := set_scale (parseFloat (ToString (get sp "scale"))) params in
    if negb (gt (scale params) (ofZ 0) || le (scale params) (ofZ 10))
    then push msg_scale params
    else params
  else params.

(** Lines 149-151: the one place where a null would be dereferenced. *)
Definition readMode (sp : t) (params : Params) : result Params :=
  if has sp "mode" then
    m <- call_toLowerCase (get sp "mode") ;;
    Ok (set_mode m params)
  else Ok params.

(** Lines 153-155. *)
Definition checkMode (params : Params) : Params :=
  if negb (includes VALID_MODES (mode params))
  then push msg_mode params
  else params.

(** Lines 157-164: an array, even an empty one, is truthy. *)
Definition readBg (sp : t) (params : Params) : Params :=
  if has sp "bg" then
    match getColor (toLowerCase (ToString (get sp "bg"))) with
    | Some color => set_bg color params
    | None => push msg_bg params
    end
  else params.

(** [getParams], lines 64-167: the blocks above in source order. *)
Definition getParams (req : Request) : result Params :=
  let reqUrl := url req in
  let sp := searchParams reqUrl in
  let params := defaults in
  let params := readFormat reqUrl params in
  let params := readQuality sp params in
  let params := readOrigin sp params in
  let params := checkOrigin params in
  let params := readWidth sp params in
  let params := readHeight sp params in
  let params := checkSize params in
  let params := readDx sp params in
  let params := readDy sp params in
  let params := readScale sp params in
  params <- readMode sp params ;;
  let params := checkMode params in
  let params := readBg sp params in
  Ok params.
End Validator.

(** ** What each block of the validator contributes

    Each block of [getParams] assigns at most one property and pushes at
    most one message.  The functions below name what a block leaves in its
    property ([old] is what was there before) and what it pushes. *)

Section Blocks.
Variable P : Platform.
Import URLSearchParams.

Definition formatValue (u : URL) (old : string) : string :=
  match getUrlExt u with
  | Some fmt => if String.eqb fmt "" then old else fmt
  | None => old
  end.

Definition formatErrors (u : URL) : list string :=
  match getUrlExt u with
  | Some fmt =>
      if String.eqb fmt "" then []
      else if negb (includes VALID_FORMATS fmt) then [msg_format fmt] else []
  | None => []
  end.

Definition intValue (sp : t) (name : string) (old : number) : number :=
  if has sp name then parseInt (ToString (get sp name)) 10 else old.

Definition floatValue (sp : t) (name : string) (old : number) : number :=
  if has sp name then parseFloat (ToString (get sp name)) else old.

Definition qualityErrors (sp : t) : list string :=
  if has sp "quality" then
    let q := parseInt (ToString (get sp "quality")) 10 in
    if gt q (ofZ 100) || lt q (ofZ 40) then [msg_quality] else []
  else [].

Definition originValue (sp : t) (old : option URL) : option URL :=
  if has sp "origin" then
    match new_URL P (ToString (get sp "origin")) with
    | Ok u => Some u
    | Throw _ => old
    end
  else old.

Definition originErrors (o : option URL) : list string :=
  match o with
  | None => [msg_origin]
  | Some _ => []
  end.

Definition nonNegativeErrors (sp : t) (name msg : string) : list string :=
  if has sp name then
    if negb (gt (parseInt (ToString (get sp name)) 10) (ofZ (-1))) then [msg]
    else []
  else [].

Definition sizeErrors (w h : number) : list string :=
  if negb (truthy w || truthy h) then [msg_size] else [].

Definition offsetErrors (sp : t) (name msg : string) : list string :=
  if has sp name then
    let d := parseFloat (ToString (get sp name)) in
    if negb (ge d (ofZ (-1)) || le d (ofZ 1)) then [msg] else []
  else [].

Definition scaleErrors (sp : t) : list string :=
  if has sp "scale" then
    let s := parseFloat (ToString (get sp "scale")) in
    if negb (gt s (ofZ 0) || le s (ofZ 10)) then [msg_scale] else []
  else [].

Definition modeValue (sp : t) (old : string) : string :=
  match get sp "mode" with
  | Some m => toLowerCase m
  | None => old
  end.

Definition modeErrors (m : string) : list string :=
  if negb (includes VALID_MODES m) then [msg_mode] else [].

Definition bgValue (sp : t) (old : list number) : list number :=
  if has sp "bg" then
    match getColor (toLowerCase (ToString (get sp "bg"))) with
    | Some color => color
    | None => old
    end
  else old.

Definition bgErrors (sp : t) : list string :=
  if has sp "bg" then
    match getColor (toLowerCase (ToString (get sp "bg"))) with
    | Some _ => []
    | None => [msg_bg]
    end
  else [].

(** Everything [getParams] pushes, in order. *)
Definition allErrors (u : URL) : list string :=
  let sp := searchParams u in
  (formatErrors u
   ++ qualityErrors sp
   ++ originErrors (originValue sp None)
   ++ nonNegativeErrors sp "width" msg_width
   ++ nonNegativeErrors sp "height" msg_height
   ++ sizeErrors (intValue sp "width" (ofZ 0)) (intValue sp "height" (ofZ 0))
   ++ offsetErrors sp "dx" msg_dx
   ++ offsetErrors sp "dy" msg_dy
   ++ scaleErrors sp
   ++ modeErrors (modeValue sp "")
   ++ bgErrors sp)%list.

(** The object [getParams] returns. *)
Definition validated (u : URL) : Params :=
  let sp := searchParams u in
  {| bg := bgValue sp [];
     dx := floatValue sp "dx" (ofZ 0);
     dy := floatValue sp "dy" (ofZ 0);
     errors := allErrors u;
     format := formatValue u "";
     height := intValue sp "height" (ofZ 0);
     mode := modeValue sp "";
     origin := originValue sp None;
     quality := intValue sp "quality" (ofZ 90);
     scale := floatValue sp "scale" (ofZ 1);
     width := intValue sp "width" (ofZ 0) |}.

End Blocks.

(** ** The Cache API and the log of platform calls *)

Definition Request_eq_dec (a b : Request) : {a = b} + {a <> b}.
Proof.
  repeat decide equality.
Defined.

Definition Request_eqb (a b : Request) : bool :=
  if Request_eq_dec a b then true else false.

(** [caches.default]: the entries put so far, most recent first.  The key
    of an entry is the request it was stored under. *)
Definition Cache : Type := list (Request * Response).

Fixpoint cache_lookup (c : Cache) (key : Request) : option Response :=
  match c with
  | [] => None
  | (k, v) :: r => if Request_eqb k key then Some v else cache_lookup r key
  end.

(** The calls the worker makes, in the order it makes them. *)
Inductive Event : Type :=
| CacheMatch (key : Request)
| Validate (req : Request)
| WasmInit
| Fetch (req : Request)
| ProcessImage (data : list byte) (params : Params)
| CachePut (key : Request) (res : Response).

Record World : Type := {
  cache : Cache;
  log : list Event
}.

(** A computation of the worker: it reads and updates the world, and either
    returns a value or throws.  What was done before a throw stays done. *)
Definition Eff (A : Type) : Type := World -> result A * World.

Definition ret {A : Type} (a : A) : Eff A := fun w => (Ok a, w).

Definition throw {A : Type} (e : string) : Eff A := fun w => (Throw e, w).

Definition ebind {A B : Type} (m : Eff A) (k : A -> Eff B) : Eff B :=
  fun w =>
    match m w with
    | (Ok a, w') => k a w'
    | (Throw e, w') => (Throw e, w')
    end.

Definition try_catch {A : Type} (m : Eff A) (handler : string -> Eff A)
  : Eff A :=
  fun w =>
    match m w with
    | (Ok a, w') => (Ok a, w')
    | (Throw e, w') => handler e w'
    end.

Notation "x <~ m ;; k" := (ebind m (fun x => k))
  (at level 61, m at next level, right associativity).
Notation "m ;;; k" := (ebind m (fun _ => k))
  (at level 61, right associativity).

Definition emit (e : Event) : Eff unit :=
  fun w => (Ok tt, {| cache := cache w; log := (log w ++ [e])%list |}).

(** A call that may throw, logged under [e]. *)
Definition call {A : Type} (e : Event) (r : result A) : Eff A :=
  emit e ;;; (fun w => (r, w)).

(** [await cache.match(key)]. *)
Definition cache_match (key : Request) : Eff (option Response) :=
  emit (CacheMatch key) ;;; (fun w => (Ok (cache_lookup (cache w) key), w)).

(** [cache.put(key, res)]. *)
Definition cache_put (key : Request) (res : Response) : Eff unit :=
  emit (CachePut key res) ;;;
  (fun w => (Ok tt, {| cache := (key, res) :: cache w; log := log w |})).

(** ** The orchestrator *)

(** [output.slice(-1)] and [output.slice(0, -1)] on a byte array. *)
Definition slice_last (output : list byte) : list byte :=
  skipn (List.length output - 1) output.
Definition slice_init (output : list byte) : list byte :=
  firstn (List.length output - 1) output.

(** [VALID_FORMATS[output_format]] where [output_format] is a byte array of
    at most one element: the property key is the array's string form, the
    decimal digits of its element, or the empty string. *)
Definition formatOfTag (output_format : list byte) : option string :=
  match output_format with
  | [b] => nth_error VALID_FORMATS (Byte.to_nat b)
  | _ => None
  end.

(** The separator of line 23: carriage return, line feed. *)
Definition CRLF : string := String "013" (String "010" "").

(** A plain-text response, as lines 9-10, 23-24 and 55-56 build it. *)
Definition text_response (text : string) (st : Z) : Response :=
  headers_set "Content-type" "text/plain" (new_Response (TextBody text) st).

Section Orchestrator.
Variable P : Platform.

(** Lines 36-57: the guarded part. *)
Definition transform (req originReq : Request) (params : Params)
    (cached : option Response) : Eff Response :=
  try_catch
    (fetched <~
       match cached with
       | Some originRes => ret (originRes, None)
       | None =>
           originRes <~ call (Fetch originReq) (fetch P originReq) ;;
           ret (originRes, Some originRes)
       end ;;
     let '(originRes, originResToCache) := fetched in
     let data := arrayBuffer originRes in
     output <~ call (ProcessImage data params) (process_image P data params) ;;
     let output_format := slice_last output in
     let res := new_Response (BytesBody (slice_init output)) 200 in
     let res :=
       headers_set "Content-type" (getMimeType (formatOfTag output_format)) res in
     cache_put req res ;;;
     match originResToCache with
     | Some r => cache_put originReq r
     | None => ret tt
     end ;;;
     ret res)
    (fun e => ret (text_response e 200)).

(** [handleRequest], lines 5-59.  The two promises of [Promise.all] are
    started in the order written; a rejection of either is outside the [try]
    block and leaves the handler as an uncaught exception. *)
Definition handleRequest (req : Request) : Eff Response :=
  if negb (String.eqb (method req) "GET") then
    ret (text_response "http method not allowed" 405)
  else
    hit <~ cache_match req ;;
    match hit with
    | Some res => ret res
    | None =>
        params <~ call (Validate req) (getParams P req) ;;
        match errors params with
        | _ :: _ =>
            ret (text_response (join CRLF (errors params)) 400)
        | [] =>
            originReq <~
              match origin params with
              | Some u => ret (new_Request u req)
              | None => throw "TypeError: Invalid URL"
              end ;;
            originRes <~ cache_match originReq ;;
            call WasmInit (wasm_bindgen P) ;;;
            transform req originReq params originRes
        end
    end.
End Orchestrator.

(** ** Reading the log, and comparing requests *)

Definition isFetch (e : Event) : bool :=
  match e with Fetch _ => true | _ => false end.

Definition isProcessImage (e : Event) : bool :=
  match e with ProcessImage _ _ => true | _ => false end.

(** How many times the origin was fetched. *)
Definition fetches (l : list Event) : nat := List.length (filter isFetch l).



(** The world a worker starts in: a cache and an empty log. *)
Definition start (c : Cache) : World := {| cache := c; log := [] |}.

(** ** A platform and requests to run the worker on *)

(** A URL constructor that accepts [https://host] followed by an optional
    path and rejects everything else. *)
Definition example_new_URL (s : string) : result URL :=
  if prefix "https://" s then
    let rest := substring 8 (String.length s - 8) s in
    match index 0 "/" rest with
    | Some i =>
        Ok {| protocol := "https:"; host := substring 0 i rest;
              pathname := substring i (String.length rest - i) rest;
              searchParams := []; hash := "" |}
    | None =>
        Ok {| protocol := "https:"; host := rest; pathname := "/";
              searchParams := []; hash := "" |}
    end
  else Throw "TypeError: Invalid URL".

(** An origin that answers every request with the same four bytes. *)
Definition example_fetch (_ : Request) : result Response :=
  Ok {| status := 200; body := BytesBody ["137"; "080"; "078"; "071"]%byte;
        headers := [("content-type", "image/png")] |}.

(** An engine that returns its input followed by the tag of the requested
    format: the index of [params.format] in [VALID_FORMATS], 0 by default. *)
Definition example_process_image (data : list byte) (params : Params)
  : result (list byte) :=
  let tag :=
    if String.eqb (format params) "jpg" then "001"%byte
    else if String.eqb (format params) "jpeg" then "002"%byte
    else "000"%byte in
  Ok (data ++ [tag])%list.

Definition example_platform : Platform :=
  {| new_URL := example_new_URL;
     fetch := example_fetch;
     wasm_bindgen := Ok tt;
     process_image := example_process_image |}.

(** The same platform with an engine that cannot decode what it is given. *)
Definition failing_engine : Platform :=
  {| new_URL := example_new_URL;
     fetch := example_fetch;
     wasm_bindgen := Ok tt;
     process_image := fun _ _ => Throw "Error: failed to decode image" |}.

(** The same platform with a wasm module that fails to initialise. *)
Definition failing_wasm : Platform :=
  {| new_URL := example_new_URL;
     fetch := example_fetch;
     wasm_bindgen := Throw "CompileError: invalid wasm module";
     process_image := example_process_image |}.

Definition example_request (m path : string) (query : URLSearchParams.t)
  : Request :=
  {| method := m;
     url := {| protocol := "https:"; host := "img.example"; pathname := path;
               searchParams := query; hash := "" |};
     reqHeaders := [] |}.

(** [?origin=https://o.example/cat.png&width=100&mode=fit] and more. *)
Definition valid_query (more : URLSearchParams.t) : URLSearchParams.t :=
  ([("origin", "https://o.example/cat.png"); ("width", "100"); ("mode", "fit")]
   ++ more)%list.

(** ** Vocabulary for the properties of [getColor] *)

(** Every code unit below 256. *)
Definition all_ascii : list ascii := map ascii_of_nat (seq 0 256).

(** NaN, or an integer from -15 to 255. *)
Definition isColourEntry (h : number) : bool :=
  match h with
  | NaN => true
  | Fin q =>
      (Zpos (Qden q) =? 1) && (-15 <=? Qnum q) && (Qnum q <=? 255)
  | _ => false
  end.

(** What [parseInt(_, 16)] gives on every string of two code units. *)
Definition twoCharEntries : bool :=
  forallb
    (fun a =>
       forallb
         (fun b => isColourEntry (parseInt (String a (String b "")) 16))
         all_ascii)
    all_ascii.

(** * Properties *)

(** ** Numbers *)

Lemma strictEquals_NaN (a : number) : strictEquals a NaN = false.
Proof. destruct a; reflexivity. Qed.

(** A number that is not NaN is above [b] or below [c] when [b < c]. *)
Lemma gt_or_le (a b c : number) :
  isNaN a = false -> lt b c = true -> gt a b || le a c = true.
Proof.
  unfold gt, le, lt.
  destruct a as [| | |p], b as [| | |q], c as [| | |r]; simpl;
    try reflexivity; try discriminate.
  - intros _ _. destruct (Qcompare q p); reflexivity.
  - intros _ H.
    destruct (Qcompare q p) eqn:E1; try reflexivity;
      destruct (Qcompare p r) eqn:E2; try reflexivity; simpl.
    + destruct (Qcompare q r) eqn:E3; try discriminate.
      apply Qeq_alt in E1. apply Qgt_alt in E2. apply Qlt_alt in E3.
      rewrite E1 in E3. exfalso. eapply Qlt_irrefl, Qlt_trans; eassumption.
    + destruct (Qcompare q r) eqn:E3; try discriminate.
      apply Qgt_alt in E1. apply Qgt_alt in E2. apply Qlt_alt in E3.
      exfalso. eapply Qlt_irrefl, Qlt_trans; [exact E3|].
      eapply Qlt_trans; eassumption.
Qed.

(** ** Search parameters *)

Lemma has_get (sp : URLSearchParams.t) (name : string) :
  URLSearchParams.has sp name =
  match URLSearchParams.get sp name with Some _ => true | None => false end.
Proof.
  induction sp as [|[k v] r IH]; simpl; [reflexivity|].
  destruct (String.eqb k name); simpl; [reflexivity|exact IH].
Qed.

(** ** The validator, block by block *)

Section BlockFacts.
Variable P : Platform.
Import URLSearchParams.

Ltac block :=
  intros;
  match goal with p : Params |- _ => destruct p end;
  cbv beta delta
    [readFormat readQuality readOrigin checkOrigin readWidth readHeight
     checkSize readDx readDy readScale checkMode readBg
     formatValue formatErrors intValue floatValue qualityErrors originValue
     originErrors nonNegativeErrors sizeErrors offsetErrors scaleErrors
     modeErrors bgValue bgErrors push];
  simpl;
  repeat match goal with
         | |- context [match ?c with _ => _ end] =>
             lazymatch c with
             | context [match _ with _ => _ end] => fail
             | _ => destruct c eqn:?
             end; simpl
         end;
  rewrite ?app_nil_r; try reflexivity; try congruence.

Lemma readFormat_eq u p :
  readFormat u p =
  set_errors (errors p ++ formatErrors u)%list
             (set_format (formatValue u (format p)) p).
Proof. block. Qed.

Lemma readQuality_eq sp p :
  readQuality sp p =
  set_errors (errors p ++ qualityErrors sp)%list
             (set_quality (intValue sp "quality" (quality p)) p).
Proof. block. Qed.

Lemma readOrigin_eq sp p :
  readOrigin P sp p = set_origin (originValue P sp (origin p)) p.
Proof. block. Qed.

Lemma checkOrigin_eq p :
  checkOrigin p = set_errors (errors p ++ originErrors (origin p))%list p.
Proof. block. Qed.

Lemma readWidth_eq sp p :
  readWidth sp p =
  set_errors (errors p ++ nonNegativeErrors sp "width" msg_width)%list
             (set_width (intValue sp "width" (width p)) p).
Proof. block. Qed.

Lemma readHeight_eq sp p :
  readHeight sp p =
  set_errors (errors p ++ nonNegativeErrors sp "height" msg_height)%list
             (set_height (intValue sp "height" (height p)) p).
Proof. block. Qed.

Lemma checkSize_eq p :
  checkSize p =
  set_errors (errors p ++ sizeErrors (width p) (height p))%list p.
Proof. block. Qed.

Lemma readDx_eq sp p :
  readDx sp p =
  set_errors (errors p ++ offsetErrors sp "dx" msg_dx)%list
             (set_dx (floatValue sp "dx" (dx p)) p).
Proof. block. Qed.

Lemma readDy_eq sp p :
  readDy sp p =
  set_errors (errors p ++ offsetErrors sp "dy" msg_dy)%list
             (set_dy (floatValue sp "dy" (dy p)) p).
Proof. block. Qed.

Lemma readScale_eq sp p :
  readScale sp p =
  set_errors (errors p ++ scaleErrors sp)%list
             (set_scale (floatValue sp "scale" (scale p)) p).
Proof. block. Qed.

Lemma readMode_eq sp p :
  readMode sp p = Ok (set_mode (modeValue sp (mode p)) p).
Proof.
  unfold readMode, modeValue. rewrite has_get.
  destruct (get sp "mode"); destruct p; reflexivity.
Qed.

Lemma checkMode_eq p :
  checkMode p = set_errors (errors p ++ modeErrors (mode p))%list p.
Proof. block. Qed.

Lemma readBg_eq sp p :
  readBg sp p =
  set_errors (errors p ++ bgErrors sp)%list (set_bg (bgValue sp (bg p)) p).
Proof. block. Qed.

(** [getParams] never throws, and returns [validated]. *)
Lemma getParams_eq (req : Request) :
  getParams P req = Ok (validated P (url req)).
Proof.
  unfold getParams.
  rewrite readFormat_eq, readQuality_eq, readOrigin_eq, checkOrigin_eq,
    readWidth_eq, readHeight_eq, checkSize_eq, readDx_eq, readDy_eq,
    readScale_eq, readMode_eq.
  cbn [bind]. rewrite checkMode_eq, readBg_eq.
  unfold validated, allErrors. cbn -[includes VALID_MODES VALID_FORMATS].
  rewrite <- !app_assoc. reflexivity.
Qed.

End BlockFacts.

(** ** What the validator pushes *)

Section ValidatorFacts.
Variable P : Platform.
Import URLSearchParams.

Lemma errors_getParams (req : Request) (p : Params) :
  getParams P req = Ok p -> errors p = allErrors P (url req).
Proof. rewrite getParams_eq. intros [= <-]. reflexivity. Qed.

Lemma in_formatErrors u m :
  In m (formatErrors u) -> exists fmt, m = msg_format fmt.
Proof.
  unfold formatErrors. destruct (getUrlExt u) as [fmt|]; [|intros []].
  destruct (String.eqb fmt ""); [intros []|].
  destruct (negb _); [|intros []].
  intros [<-|[]]. exists fmt. reflexivity.
Qed.

Lemma in_qualityErrors sp m : In m (qualityErrors sp) -> m = msg_quality.
Proof.
  unfold qualityErrors. destruct (has sp "quality"); [|intros []].
  cbv zeta. destruct (_ || _); [|intros []]. intros [<-|[]]. reflexivity.
Qed.

Lemma in_originErrors o m : In m (originErrors o) -> m = msg_origin.
Proof. destruct o; [intros []|]. intros [<-|[]]. reflexivity. Qed.

Lemma in_nonNegativeErrors sp name msg m :
  In m (nonNegativeErrors sp name msg) -> m = msg.
Proof.
  unfold nonNegativeErrors. destruct (has sp name); [|intros []].
  destruct (negb _); [|intros []]. intros [<-|[]]. reflexivity.
Qed.

Lemma in_sizeErrors w h m : In m (sizeErrors w h) -> m = msg_size.
Proof.
  unfold sizeErrors. destruct (negb _); [|intros []].
  intros [<-|[]]. reflexivity.
Qed.

Lemma in_offsetErrors sp name msg m :
  In m (offsetErrors sp name msg) -> m = msg.
Proof.
  unfold offsetErrors. destruct (has sp name); [|intros []].
  cbv zeta. destruct (negb _); [|intros []]. intros [<-|[]]. reflexivity.
Qed.

Lemma in_scaleErrors sp m : In m (scaleErrors sp) -> m = msg_scale.
Proof.
  unfold scaleErrors. destruct (has sp "scale"); [|intros []].
  cbv zeta. destruct (negb _); [|intros []]. intros [<-|[]]. reflexivity.
Qed.

Lemma in_modeErrors md m : In m (modeErrors md) -> m = msg_mode.
Proof.
  unfold modeErrors. destruct (negb _); [|intros []].
  intros [<-|[]]. reflexivity.
Qed.

Lemma in_bgErrors sp m : In m (bgErrors sp) -> m = msg_bg.
Proof.
  unfold bgErrors. destruct (has sp "bg"); [|intros []].
  destruct (getColor _); simpl; intros H; [contradiction|].
  destruct H as [<-|[]]. reflexivity.
Qed.

(** A message in [errors] was pushed by one of the eleven blocks. *)
Lemma in_allErrors u m :
  In m (allErrors P u) ->
  (exists fmt, m = msg_format fmt) \/
  (m = msg_quality /\ qualityErrors (searchParams u) <> []) \/
  m = msg_origin \/
  (m = msg_width /\ nonNegativeErrors (searchParams u) "width" msg_width <> []) \/
  (m = msg_height /\ nonNegativeErrors (searchParams u) "height" msg_height <> []) \/
  m = msg_size \/
  (m = msg_dx /\ offsetErrors (searchParams u) "dx" msg_dx <> []) \/
  (m = msg_dy /\ offsetErrors (searchParams u) "dy" msg_dy <> []) \/
  m = msg_scale \/
  m = msg_mode \/
  (m = msg_bg /\ bgErrors (searchParams u) <> []).
Proof.
  unfold allErrors. cbv zeta. rewrite !in_app_iff.
  intros H. decompose [or] H; clear H.
  - left. eapply in_formatErrors; eassumption.
  - right; left. split; [eapply in_qualityErrors; eassumption|].
    intros E; rewrite E in *; contradiction.
  - do 2 right; left. eapply in_originErrors; eassumption.
  - do 3 right; left. split; [eapply in_nonNegativeErrors; eassumption|].
    intros E; rewrite E in *; contradiction.
  - do 4 right; left. split; [eapply in_nonNegativeErrors; eassumption|].
    intros E; rewrite E in *; contradiction.
  - do 5 right; left. eapply in_sizeErrors; eassumption.
  - do 6 right; left. split; [eapply in_offsetErrors; eassumption|].
    intros E; rewrite E in *; contradiction.
  - do 7 right; left. split; [eapply in_offsetErrors; eassumption|].
    intros E; rewrite E in *; contradiction.
  - do 8 right; left. eapply in_scaleErrors; eassumption.
  - do 9 right; left. eapply in_modeErrors; eassumption.
  - do 10 right. split; [eapply in_bgErrors; eassumption|].
    intros E; rewrite E in *; contradiction.
Qed.

Lemma msg_format_prefix fmt :
  exists rest, msg_format fmt = String "i" rest.
Proof. unfold msg_format. simpl. eexists. reflexivity. Qed.

(** The messages are pairwise different, so one message in [errors] tells
    which block pushed it. *)
Ltac which_block H :=
  apply in_allErrors in H;
  decompose [or and ex] H; clear H;
  try discriminate;
  try match goal with
      | E : _ = msg_format ?f |- _ =>
          destruct (msg_format_prefix f) as [? E']; rewrite E' in E;
          discriminate E
      end.

Lemma in_errors_quality u :
  In msg_quality (allErrors P u) -> qualityErrors (searchParams u) <> [].
Proof. intros H. which_block H. assumption. Qed.

Lemma in_errors_dx u :
  In msg_dx (allErrors P u) -> offsetErrors (searchParams u) "dx" msg_dx <> [].
Proof. intros H. which_block H. assumption. Qed.

Lemma in_errors_dy u :
  In msg_dy (allErrors P u) -> offsetErrors (searchParams u) "dy" msg_dy <> [].
Proof. intros H. which_block H. assumption. Qed.

Lemma in_errors_bg u :
  In msg_bg (allErrors P u) -> bgErrors (searchParams u) <> [].
Proof. intros H. which_block H. assumption. Qed.

End ValidatorFacts.

(** ** The validator: results *)

Section ValidatorResults.
Variable P : Platform.
Import URLSearchParams.

Lemma intValue_present sp name old v :
  get sp name = Some v -> intValue sp name old = parseInt v 10.
Proof. intros H. unfold intValue. rewrite has_get, H. reflexivity. Qed.

Lemma intValue_absent sp name old :
  get sp name = None -> intValue sp name old = old.
Proof. intros H. unfold intValue. rewrite has_get, H. reflexivity. Qed.

Lemma floatValue_present sp name old v :
  get sp name = Some v -> floatValue sp name old = parseFloat v.
Proof. intros H. unfold floatValue. rewrite has_get, H. reflexivity. Qed.

Lemma floatValue_absent sp name old :
  get sp name = None -> floatValue sp name old = old.
Proof. intros H. unfold floatValue. rewrite has_get, H. reflexivity. Qed.

(** The quality check lets NaN through: both comparisons are false. *)
Lemma qualityErrors_NaN sp v :
  get sp "quality" = Some v -> parseInt v 10 = NaN -> qualityErrors sp = [].
Proof.
  intros H E. unfold qualityErrors. rewrite has_get, H. simpl. rewrite E.
  reflexivity.
Qed.

Lemma quality_NaN_not_rejected (req : Request) (v : string) :
  get (searchParams (url req)) "quality" = Some v ->
  parseInt v 10 = NaN ->
  exists p, getParams P req = Ok p /\ quality p = NaN /\
            ~ In msg_quality (errors p).
Proof.
  intros H E. exists (validated P (url req)). split; [apply getParams_eq|].
  split.
  - simpl. erewrite intValue_present by eassumption. exact E.
  - simpl. intros Hin. apply in_errors_quality in Hin.
    apply Hin. eapply qualityErrors_NaN; eassumption.
Qed.

(** The width and height checks are written the other way round,
    [!(x > -1)], and do reject NaN. *)
Lemma nonNegativeErrors_NaN sp name msg v :
  get sp name = Some v -> parseInt v 10 = NaN ->
  nonNegativeErrors sp name msg = [msg].
Proof.
  intros H E. unfold nonNegativeErrors. rewrite has_get, H. simpl. rewrite E.
  reflexivity.
Qed.

(** The offset check [!(d >= -1 || d <= 1)] fails for NaN only. *)
Lemma offsetErrors_number sp name msg v :
  get sp name = Some v -> isNaN (parseFloat v) = false ->
  offsetErrors sp name msg = [].
Proof.
  intros H E. unfold offsetErrors. rewrite has_get, H. simpl.
  destruct (parseFloat v) as [| | |q] eqn:F; try discriminate; try reflexivity.
  assert (G : ge (Fin q) (ofZ (-1)) || le (Fin q) (ofZ 1) = true).
  { unfold ge, le, ofZ. simpl.
    destruct (Qcompare (inject_Z (-1)) q) eqn:E1; try reflexivity.
    destruct (Qcompare q (inject_Z 1)) eqn:E2; try reflexivity.
    apply Qgt_alt in E1. apply Qgt_alt in E2. exfalso.
    assert (inject_Z 1 < inject_Z (-1))%Q by (eapply Qlt_trans; eassumption).
    revert H0. unfold Qlt. simpl. lia. }
  rewrite G. reflexivity.
Qed.

(** The scale check [!(s > 0 || s <= 10)] fails for NaN only as well. *)
Lemma scaleErrors_number sp v :
  get sp "scale" = Some v -> isNaN (parseFloat v) = false ->
  scaleErrors sp = [].
Proof.
  intros H E. unfold scaleErrors. rewrite has_get, H. simpl.
  rewrite gt_or_le; [reflexivity|exact E|reflexivity].
Qed.

(** The loop of [getColor] never takes its early return. *)
Lemma getColor_loop_some n s out :
  getColor_loop n s out =
  Some (out ++ repeat (parseInt (slice0 2 s) 16) n)%list.
Proof.
  revert out. induction n as [|n IH]; intros out; simpl.
  - rewrite app_nil_r. reflexivity.
  - rewrite strictEquals_NaN, IH, <- app_assoc. reflexivity.
Qed.

(** Every colour [getColor] returns is its first byte three times. *)
Lemma getColor_repeats s color :
  getColor s = Some color -> exists h, color = [h; h; h].
Proof.
  unfold getColor. destruct (String.length _ =? 6)%nat; [|discriminate].
  rewrite getColor_loop_some. intros [= <-]. eexists. reflexivity.
Qed.

(** A string of six code units is always accepted. *)
Lemma getColor_six s :
  String.length s = 6%nat ->
  getColor s = Some (repeat (parseInt (slice0 2 s) 16) 3).
Proof.
  intros H. unfold getColor. rewrite H. simpl.
  rewrite H. simpl. rewrite !strictEquals_NaN. reflexivity.
Qed.

Lemma bg_six_not_rejected (req : Request) (v : string) :
  get (searchParams (url req)) "bg" = Some v ->
  String.length (toLowerCase v) = 6%nat ->
  exists p, getParams P req = Ok p /\ ~ In msg_bg (errors p).
Proof.
  intros H L. exists (validated P (url req)). split; [apply getParams_eq|].
  simpl. intros Hin. apply in_errors_bg in Hin. apply Hin.
  unfold bgErrors. rewrite has_get, H. simpl.
  rewrite getColor_six; [reflexivity|exact L].
Qed.

End ValidatorResults.

(** ** Claims about the validator *)

(** C2.  A three-digit [bg] is expanded by doubling each digit, but the loop
    of [getColor] parses the first two digits of the expanded string three
    times: for [bg=f00] the expansion is [ff0000] and the colour stored is
    (255, 255, 255), not (255, 0, 0). *)
Theorem bg_f00_is_white :
  let req := example_request "GET" "/a.png" (valid_query [("bg", "f00")]) in
  doubleChars "f00" = "ff0000" /\
  getColor "f00" = Some [ofZ 255; ofZ 255; ofZ 255] /\
  exists p, getParams example_platform req = Ok p /\
            errors p = [] /\
            bg p = [ofZ 255; ofZ 255; ofZ 255].
Proof.
  cbv zeta. split; [reflexivity|]. split; [reflexivity|].
  eexists. split; [apply getParams_eq|]. split; vm_compute; reflexivity.
Qed.

(** C3.  A [quality] that does not parse is NaN, and NaN passes the range
    check [quality > 100 || quality < 40]: for [quality=abc] no message is
    pushed and NaN stays in the parameter object. *)
Theorem quality_abc_is_accepted :
  let req := example_request "GET" "/a.png" (valid_query [("quality", "abc")]) in
  parseInt "abc" 10 = NaN /\
  exists p, getParams example_platform req = Ok p /\
            quality p = NaN /\
            errors p = [].
Proof.
  cbv zeta. split; [reflexivity|].
  eexists. split; [apply getParams_eq|]. split; vm_compute; reflexivity.
Qed.

(** C4.  The test [hex === NaN] in the loop of [getColor] is never true, so
    a six-character [bg] is accepted whatever it contains: for [bg=zzzzzz]
    no message is pushed and the colour stored is (NaN, NaN, NaN). *)
Theorem bg_zzzzzz_is_accepted :
  let req := example_request "GET" "/a.png" (valid_query [("bg", "zzzzzz")]) in
  getColor "zzzzzz" = Some [NaN; NaN; NaN] /\
  exists p, getParams example_platform req = Ok p /\
            bg p = [NaN; NaN; NaN] /\
            ~ In msg_bg (errors p).
Proof.
  cbv zeta. split; [reflexivity|].
  eexists. split; [apply getParams_eq|]. split; [vm_compute; reflexivity|].
  vm_compute. intros [].
Qed.

(** C6.  When [dx] (or [dy]) is present and parses to a number, that number
    is stored and no [dx] (or [dy]) message is pushed, whatever the number:
    the check [!(d >= -1 || d <= 1)] rejects NaN only. *)
Theorem dx_dy_never_rejected (P : Platform) (req : Request) :
  (forall v,
      URLSearchParams.get (searchParams (url req)) "dx" = Some v ->
      isNaN (parseFloat v) = false ->
      exists p, getParams P req = Ok p /\ dx p = parseFloat v /\
                ~ In msg_dx (errors p)) /\
  (forall v,
      URLSearchParams.get (searchParams (url req)) "dy" = Some v ->
      isNaN (parseFloat v) = false ->
      exists p, getParams P req = Ok p /\ dy p = parseFloat v /\
                ~ In msg_dy (errors p)).
Proof.
  split; intros v H E; exists (validated P (url req));
    (split; [apply getParams_eq|]); split.
  - simpl. eapply floatValue_present; eassumption.
  - simpl. intros Hin. apply in_errors_dx in Hin. apply Hin.
    eapply offsetErrors_number; eassumption.
  - simpl. eapply floatValue_present; eassumption.
  - simpl. intros Hin. apply in_errors_dy in Hin. apply Hin.
    eapply offsetErrors_number; eassumption.
Qed.

(** [dx=5] and [dy=-7.5] are outside [-1, 1] and are accepted. *)
Lemma dx_dy_never_rejected_witness :
  let req := example_request "GET" "/a.png"
               (valid_query [("dx", "5"); ("dy", "-7.5")]) in
  (exists p, getParams example_platform req = Ok p /\ dx p = ofZ 5 /\
             ~ In msg_dx (errors p)) /\
  (exists p, getParams example_platform req = Ok p /\ dy p = Fin (-15 # 2) /\
             ~ In msg_dy (errors p)).
Proof.
  cbv zeta.
  destruct (dx_dy_never_rejected example_platform
              (example_request "GET" "/a.png"
                 (valid_query [("dx", "5"); ("dy", "-7.5")]))) as [Hx Hy].
  split.
  - apply (Hx "5"); reflexivity.
  - apply (Hy "-7.5"); reflexivity.
Defined.

(** C9.  [getParams] returns for every request, and each property of the
    object it returns is the default of lines 66-78 when its parameter is
    absent (or, for [origin] and [bg], not usable) and the parsed value
    otherwise. *)
Theorem getParams_total (P : Platform) (req : Request) :
  let sp := searchParams (url req) in
  let present (name : string) := URLSearchParams.get sp name in
  exists p, getParams P req = Ok p /\
    format p = match getUrlExt (url req) with Some ext => ext | None => "" end /\
    quality p =
      match present "quality" with Some v => parseInt v 10 | None => ofZ 90 end /\
    origin p =
      match present "origin" with
      | Some v => match new_URL P v with Ok u => Some u | Throw _ => None end
      | None => None
      end /\
    width p =
      match present "width" with Some v => parseInt v 10 | None => ofZ 0 end /\
    height p =
      match present "height" with Some v => parseInt v 10 | None => ofZ 0 end /\
    dx p = match present "dx" with Some v => parseFloat v | None => ofZ 0 end /\
    dy p = match present "dy" with Some v => parseFloat v | None => ofZ 0 end /\
    scale p =
      match present "scale" with Some v => parseFloat v | None => ofZ 1 end /\
    mode p = match present "mode" with Some v => toLowerCase v | None => "" end /\
    bg p =
      match present "bg" with
      | Some v => match getColor (toLowerCase v) with Some c => c | None => [] end
      | None => []
      end.
Proof.
  cbv zeta. exists (validated P (url req)). split; [apply getParams_eq|].
  unfold validated; cbn [format quality origin width height dx dy scale mode bg].
  unfold formatValue, intValue, floatValue, originValue, modeValue, bgValue.
  rewrite !has_get.
  repeat split;
    try (match goal with
         | |- context [URLSearchParams.get ?s ?n] =>
             destruct (URLSearchParams.get s n); reflexivity
         end).
  destruct (getUrlExt (url req)) as [ext|]; [|reflexivity].
  destruct (String.eqb_spec ext ""); congruence.
Qed.

(** C10.  When [width] (or [height]) is present and does not parse, NaN is
    stored and the width (or height) message is pushed: NaN fails
    [width > -1]. *)
Theorem width_height_unparsable_rejected (P : Platform) (req : Request) :
  (forall v,
      URLSearchParams.get (searchParams (url req)) "width" = Some v ->
      parseInt v 10 = NaN ->
      exists p, getParams P req = Ok p /\ width p = NaN /\
                In msg_width (errors p)) /\
  (forall v,
      URLSearchParams.get (searchParams (url req)) "height" = Some v ->
      parseInt v 10 = NaN ->
      exists p, getParams P req = Ok p /\ height p = NaN /\
                In msg_height (errors p)).
Proof.
  split; intros v H E; exists (validated P (url req));
    (split; [apply getParams_eq|]); split.
  - simpl. erewrite intValue_present by eassumption. exact E.
  - simpl. unfold allErrors. cbv zeta.
    rewrite (@nonNegativeErrors_NaN _ _ msg_width _ H E).
    rewrite !in_app_iff. do 3 right. left. left. reflexivity.
  - simpl. erewrite intValue_present by eassumption. exact E.
  - simpl. unfold allErrors. cbv zeta.
    rewrite (@nonNegativeErrors_NaN _ _ msg_height _ H E).
    rewrite !in_app_iff. do 4 right. left. left. reflexivity.
Qed.

(** [width=wide] and [height=tall] are rejected. *)
Lemma width_height_unparsable_rejected_witness :
  let req := example_request "GET" "/a.png"
               [("width", "wide"); ("height", "tall")] in
  (exists p, getParams example_platform req = Ok p /\ width p = NaN /\
             In msg_width (errors p)) /\
  (exists p, getParams example_platform req = Ok p /\ height p = NaN /\
             In msg_height (errors p)).
Proof.
  cbv zeta.
  destruct (width_height_unparsable_rejected example_platform
              (example_request "GET" "/a.png"
                 [("width", "wide"); ("height", "tall")])) as [Hw Hh].
  split.
  - apply (Hw "wide"); reflexivity.
  - apply (Hh "tall"); reflexivity.
Defined.

(** ** The orchestrator, path by path *)

Section OrchestratorFacts.
Variable P : Platform.

Ltac run :=
  cbv beta iota delta
    [handleRequest transform ebind ret throw try_catch call emit cache_match
     cache_put start];
  cbn [cache log fst snd].

Ltac is_GET H :=
  unfold handleRequest; rewrite H;
  replace (negb (String.eqb "GET" "GET")) with false by reflexivity.


Lemma Request_eqb_refl (r : Request) : Request_eqb r r = true.
Proof. unfold Request_eqb. destruct (Request_eq_dec r r); congruence. Qed.

(** Line 8: any other method ends the request at once. *)
Lemma handleRequest_not_GET (req : Request) (w : World) :
  method req <> "GET" ->
  handleRequest P req w = (Ok (text_response "http method not allowed" 405), w).
Proof.
  intros H. unfold handleRequest.
  destruct (String.eqb_spec (method req) "GET"); [contradiction|reflexivity].
Qed.

(** Lines 15-18: a cached response is returned as it is. *)
Lemma handleRequest_hit (req : Request) (w : World) (res : Response) :
  method req = "GET" ->
  cache_lookup (cache w) req = Some res ->
  handleRequest P req w =
  (Ok res, {| cache := cache w; log := log w ++ [CacheMatch req] |}).
Proof.
  intros Hm Hc. is_GET Hm. run. rewrite Hc. reflexivity.
Qed.

(** Lines 20-26: validation errors end the request with status 400. *)
Lemma handleRequest_invalid (req : Request) (w : World) (p : Params) :
  method req = "GET" ->
  cache_lookup (cache w) req = None ->
  getParams P req = Ok p ->
  errors p <> [] ->
  handleRequest P req w =
  (Ok (text_response (join CRLF (errors p)) 400),
   {| cache := cache w; log := log w ++ [CacheMatch req; Validate req] |}).
Proof.
  intros Hm Hc Hp He. is_GET Hm. run.
  rewrite Hc, Hp. destruct (errors p) eqn:E; [congruence|].
  cbn [cache log]. rewrite <- app_assoc. reflexivity.
Qed.

(** Lines 36-57 when the origin response came from the cache. *)
Lemma transform_cached (req originReq : Request) (p : Params)
    (originRes : Response) (w : World) :
  transform P req originReq p (Some originRes) w =
  let data := arrayBuffer originRes in
  match process_image P data p with
  | Throw e =>
      (Ok (text_response e 200),
       {| cache := cache w; log := log w ++ [ProcessImage data p] |})
  | Ok output =>
      let res :=
        headers_set "Content-type"
          (getMimeType (formatOfTag (slice_last output)))
          (new_Response (BytesBody (slice_init output)) 200) in
      (Ok res,
       {| cache := (req, res) :: cache w;
          log := log w ++ [ProcessImage data p; CachePut req res] |})
  end.
Proof.
  run. destruct (process_image P (arrayBuffer originRes) p); cbn [cache log].
  - rewrite <- app_assoc. reflexivity.
  - reflexivity.
Qed.

(** Lines 36-57 when the origin has to be fetched. *)
Lemma transform_fetched (req originReq : Request) (p : Params) (w : World) :
  transform P req originReq p None w =
  match fetch P originReq with
  | Throw e =>
      (Ok (text_response e 200),
       {| cache := cache w; log := log w ++ [Fetch originReq] |})
  | Ok originRes =>
      let data := arrayBuffer originRes in
      match process_image P data p with
      | Throw e =>
          (Ok (text_response e 200),
           {| cache := cache w;
              log := log w ++ [Fetch originReq; ProcessImage data p] |})
      | Ok output =>
          let res :=
            headers_set "Content-type"
              (getMimeType (formatOfTag (slice_last output)))
              (new_Response (BytesBody (slice_init output)) 200) in
          (Ok res,
           {| cache := (originReq, originRes) :: (req, res) :: cache w;
              log := log w ++ [Fetch originReq; ProcessImage data p;
                               CachePut req res;
                               CachePut originReq originRes] |})
      end
  end.
Proof.
  run. destruct (fetch P originReq) as [originRes|e]; cbn [cache log].
  - destruct (process_image P (arrayBuffer originRes) p); cbn [cache log];
      rewrite <- ?app_assoc; reflexivity.
  - reflexivity.
Qed.

(** Lines 28-34: a valid request that missed the response cache. *)
Lemma handleRequest_valid (req : Request) (w : World) (p : Params) (u : URL) :
  method req = "GET" ->
  cache_lookup (cache w) req = None ->
  getParams P req = Ok p ->
  errors p = [] ->
  origin p = Some u ->
  handleRequest P req w =
  let originReq := new_Request u req in
  let w' := {| cache := cache w;
               log := log w ++ [CacheMatch req; Validate req;
                                CacheMatch originReq; WasmInit] |} in
  match wasm_bindgen P with
  | Throw e => (Throw e, w')
  | Ok _ => transform P req originReq p (cache_lookup (cache w) originReq) w'
  end.
Proof.
  intros Hm Hc Hp He Ho. is_GET Hm.
  cbv beta iota delta [ebind ret throw call emit cache_match]. cbn [cache log].
  rewrite Hc, Hp, He, Ho. cbv zeta. cbn [cache log].
  rewrite <- !app_assoc. cbn [app].
  destruct (wasm_bindgen P); reflexivity.
Qed.

(** A request without validation errors has an origin. *)
Lemma valid_origin (req : Request) (p : Params) :
  getParams P req = Ok p -> errors p = [] -> exists u, origin p = Some u.
Proof.
  rewrite getParams_eq. intros [= <-]. simpl. unfold allErrors. cbv zeta.
  destruct (originValue P (searchParams (url req)) None) as [u|].
  - intros _. exists u. reflexivity.
  - intros H. exfalso.
    destruct (formatErrors (url req)); [|discriminate H].
    destruct (qualityErrors (searchParams (url req))); discriminate H.
Qed.

End OrchestratorFacts.

(** ** How often the origin is fetched *)

Section Fetches.
Variable P : Platform.





End Fetches.

(** ** Requests that differ in [quality] only *)

Section QualityVariants.
Variable P : Platform.
Import URLSearchParams.






End QualityVariants.

(** ** The second of two variants is processed on its own *)

Section SecondVariant.
Variable P : Platform.




End SecondVariant.

(** ** Claims about the orchestrator *)

(** The table of [getMimeType] has two entries. *)
Lemma getMimeType_table :
  getMimeType (Some "png") = "image/png" /\
  getMimeType (Some "jpg") = "image/jpeg" /\
  getMimeType None = "application/octet-stream" /\
  getMimeType (Some "gif") = "application/octet-stream".
Proof. repeat split. Qed.

(** C1, as stated, fails: a request with validation errors whose method is
    not GET is answered with 405, not 400. *)
Lemma invalid_POST_is_not_400 :
  ~ (forall (P : Platform) (req : Request) (w : World) (p : Params),
        getParams P req = Ok p ->
        errors p <> [] ->
        exists res w',
          handleRequest P req w = (Ok res, w') /\ status res = 400).
Proof.
  intros H.
  destruct (H example_platform (example_request "POST" "/a.png" [])
              (start []) _ (getParams_eq _ _)) as (res & w' & E & S).
  - vm_compute. discriminate.
  - vm_compute in E. injection E as <- _. discriminate S.
Qed.

(** C1, amended.  A request with validation errors never reaches [fetch] or
    [process_image], whatever its method and whatever the cache holds; when
    its method is GET and the response cache has no entry for it, it is
    answered with status 400 and a plain-text body, the messages joined by
    CR LF, after one cache lookup and the validation. *)
Theorem invalid_request_is_400 (P : Platform) (req : Request) (w : World)
    (p : Params) :
  getParams P req = Ok p ->
  errors p <> [] ->
  (exists evs,
      log (snd (handleRequest P req w)) = (log w ++ evs)%list /\
      filter isFetch evs = [] /\ filter isProcessImage evs = []) /\
  (method req = "GET" ->
   cache_lookup (cache w) req = None ->
   exists res,
     handleRequest P req w =
       (Ok res,
        {| cache := cache w;
           log := log w ++ [CacheMatch req; Validate req] |}) /\
     status res = 400 /\
     body res = TextBody (join CRLF (errors p)) /\
     headers_get "Content-type" res = Some "text/plain").
Proof.
  intros Hp He. split.
  - destruct (String.eqb_spec (method req) "GET") as [Hm|Hm].
    + destruct (cache_lookup (cache w) req) as [res|] eqn:Hr.
      * rewrite (@handleRequest_hit P req w res Hm Hr).
        exists [CacheMatch req]. repeat split.
      * rewrite (@handleRequest_invalid P req w p Hm Hr Hp He).
        exists [CacheMatch req; Validate req]. repeat split.
    + rewrite (@handleRequest_not_GET P req w Hm).
      exists []. rewrite app_nil_r. repeat split.
  - intros Hm Hr. eexists. split.
    + apply (@handleRequest_invalid P req w p Hm Hr Hp He).
    + repeat split.
Qed.

(** A GET request without parameters, on an empty cache. *)
Lemma invalid_request_is_400_witness :
  let req := example_request "GET" "/a.png" [] in
  exists res,
    handleRequest example_platform req (start []) =
      (Ok res, {| cache := []; log := [CacheMatch req; Validate req] |}) /\
    status res = 400 /\
    body res =
      TextBody (join CRLF [msg_origin; msg_size; msg_mode]) /\
    headers_get "Content-type" res = Some "text/plain".
Proof.
  cbv zeta.
  refine (proj2 (@invalid_request_is_400 example_platform
                   (example_request "GET" "/a.png" []) (start [])
                   (validated example_platform
                      (url (example_request "GET" "/a.png" [])))
                   (getParams_eq _ _) _) eq_refl eq_refl).
  vm_compute. discriminate.
Defined.

(** C5.  [VALID_FORMATS] has three entries and the table of [getMimeType]
    two: the tag 2 selects [jpeg], which the table does not have, and the
    response goes out as [application/octet-stream]. *)
Theorem jpeg_tag_is_octet_stream :
  let req := example_request "GET" "/a.jpeg" (valid_query []) in
  formatOfTag ["002"%byte] = Some "jpeg" /\
  getMimeType (Some "jpeg") = "application/octet-stream" /\
  exists res w',
    handleRequest example_platform req (start []) = (Ok res, w') /\
    In (ProcessImage ["137"; "080"; "078"; "071"]%byte
          (validated example_platform (url req))) (log w') /\
    example_process_image ["137"; "080"; "078"; "071"]%byte
      (validated example_platform (url req)) =
      Ok ["137"; "080"; "078"; "071"; "002"]%byte /\
    status res = 200 /\
    body res = BytesBody ["137"; "080"; "078"; "071"]%byte /\
    headers_get "Content-type" res = Some "application/octet-stream".
Proof.
  cbv zeta. split; [reflexivity|]. split; [reflexivity|].
  eexists. eexists. split; [vm_compute; reflexivity|].
  split; [|repeat split]. vm_compute. do 5 right. left. reflexivity.
Qed.




(** C8.  A request whose method is not GET is answered with status 405 and
    a plain-text body, and nothing else happens: the cache and the log are
    as they were. *)
Theorem not_GET_is_405 (P : Platform) (req : Request) (w : World) :
  method req <> "GET" ->
  exists res,
    handleRequest P req w = (Ok res, w) /\
    status res = 405 /\
    body res = TextBody "http method not allowed" /\
    headers_get "Content-type" res = Some "text/plain".
Proof.
  intros Hm. eexists. split; [apply (@handleRequest_not_GET P req w Hm)|].
  repeat split.
Qed.

(** A POST with an otherwise valid query. *)
Lemma not_GET_is_405_witness :
  let req := example_request "POST" "/a.png" (valid_query []) in
  exists res,
    handleRequest example_platform req (start []) = (Ok res, start []) /\
    status res = 405 /\
    body res = TextBody "http method not allowed" /\
    headers_get "Content-type" res = Some "text/plain".
Proof.
  cbv zeta.
  apply (@not_GET_is_405 example_platform
           (example_request "POST" "/a.png" (valid_query [])) (start [])).
  discriminate.
Defined.

(** * Further properties of the validator *)

(** [H] says that a message is pushed by a block that never pushes it. *)
Ltac differ H :=
  first
    [ discriminate H
    | match type of H with
      | msg_format ?f = _ =>
          let E := fresh in
          destruct (msg_format_prefix f) as [? E]; rewrite E in H;
          discriminate H
      | _ = msg_format ?f =>
          let E := fresh in
          destruct (msg_format_prefix f) as [? E]; rewrite E in H;
          discriminate H
      end ].

Ltac foreign H :=
  first
    [ apply in_formatErrors in H; destruct H as [? H]; differ H
    | apply in_qualityErrors in H; differ H
    | apply in_originErrors in H; differ H
    | apply in_nonNegativeErrors in H; differ H
    | apply in_sizeErrors in H; differ H
    | apply in_offsetErrors in H; differ H
    | apply in_scaleErrors in H; differ H
    | apply in_modeErrors in H; differ H
    | apply in_bgErrors in H; differ H ].

Section ValidatorContract.
Variable P : Platform.
Import URLSearchParams.

Lemma in_allErrors_iff (u : URL) (m : string) :
  let sp := searchParams u in
  In m (allErrors P u) <->
  In m (formatErrors u) \/
  In m (qualityErrors sp) \/
  In m (originErrors (originValue P sp None)) \/
  In m (nonNegativeErrors sp "width" msg_width) \/
  In m (nonNegativeErrors sp "height" msg_height) \/
  In m (sizeErrors (intValue sp "width" (ofZ 0)) (intValue sp "height" (ofZ 0))) \/
  In m (offsetErrors sp "dx" msg_dx) \/
  In m (offsetErrors sp "dy" msg_dy) \/
  In m (scaleErrors sp) \/
  In m (modeErrors (modeValue sp "")) \/
  In m (bgErrors sp).
Proof. cbv zeta. unfold allErrors. rewrite !in_app_iff. reflexivity. Qed.

(** Reduces membership in [errors] to membership in the one block that
    pushes the message. *)
Ltac one_block :=
  rewrite in_allErrors_iff; cbv zeta;
  split;
  [ let H := fresh in
    intros H; decompose [or] H; clear H;
    try assumption;
    exfalso;
    match goal with
    | H' : In _ _ |- _ => foreign H'
    end
  | tauto ].

Lemma only_quality u :
  In msg_quality (allErrors P u) <-> In msg_quality (qualityErrors (searchParams u)).
Proof. one_block. Qed.

Lemma only_origin u :
  In msg_origin (allErrors P u) <->
  In msg_origin (originErrors (originValue P (searchParams u) None)).
Proof. one_block. Qed.

Lemma only_width u :
  In msg_width (allErrors P u) <->
  In msg_width (nonNegativeErrors (searchParams u) "width" msg_width).
Proof. one_block. Qed.

Lemma only_height u :
  In msg_height (allErrors P u) <->
  In msg_height (nonNegativeErrors (searchParams u) "height" msg_height).
Proof. one_block. Qed.

Lemma only_size u :
  In msg_size (allErrors P u) <->
  In msg_size (sizeErrors (intValue (searchParams u) "width" (ofZ 0))
                          (intValue (searchParams u) "height" (ofZ 0))).
Proof. one_block. Qed.

Lemma only_dx u :
  In msg_dx (allErrors P u) <->
  In msg_dx (offsetErrors (searchParams u) "dx" msg_dx).
Proof. one_block. Qed.

Lemma only_dy u :
  In msg_dy (allErrors P u) <->
  In msg_dy (offsetErrors (searchParams u) "dy" msg_dy).
Proof. one_block. Qed.

Lemma only_scale u :
  In msg_scale (allErrors P u) <-> In msg_scale (scaleErrors (searchParams u)).
Proof. one_block. Qed.

Lemma only_mode u :
  In msg_mode (allErrors P u) <->
  In msg_mode (modeErrors (modeValue (searchParams u) "")).
Proof. one_block. Qed.

Lemma only_bg u :
  In msg_bg (allErrors P u) <-> In msg_bg (bgErrors (searchParams u)).
Proof. one_block. Qed.

Lemma only_format u ext :
  In (msg_format ext) (allErrors P u) <-> In (msg_format ext) (formatErrors u).
Proof. one_block. Qed.

(** Comparisons of integers are the comparisons of [Z]. *)
Lemma compare_ofZ (a b : Z) : compare (ofZ a) (ofZ b) = Some (a ?= b)%Z.
Proof.
  unfold compare, ofZ, Qcompare, inject_Z. simpl. rewrite !Z.mul_1_r.
  reflexivity.
Qed.

Lemma lt_ofZ (a b : Z) : lt (ofZ a) (ofZ b) = (a <? b)%Z.
Proof. unfold lt. rewrite compare_ofZ. unfold Z.ltb. reflexivity. Qed.

Lemma gt_ofZ (a b : Z) : gt (ofZ a) (ofZ b) = (b <? a)%Z.
Proof. unfold gt. apply lt_ofZ. Qed.

(** [d >= -1 || d <= 1] and [s > 0 || s <= 10] say "not NaN". *)
Lemma offset_check (d : number) :
  ge d (ofZ (-1)) || le d (ofZ 1) = negb (isNaN d).
Proof.
  destruct d as [| | |q]; try reflexivity.
  unfold ge, le, ofZ. simpl.
  destruct (Qcompare (inject_Z (-1)) q) eqn:E1; try reflexivity.
  destruct (Qcompare q (inject_Z 1)) eqn:E2; try reflexivity.
  apply Qgt_alt in E1. apply Qgt_alt in E2. exfalso.
  assert (L : (inject_Z 1 < inject_Z (-1))%Q) by (eapply Qlt_trans; eassumption).
  revert L. unfold Qlt. simpl. lia.
Qed.

Lemma scale_check (s : number) :
  gt s (ofZ 0) || le s (ofZ 10) = negb (isNaN s).
Proof.
  destruct s as [| | |q]; try reflexivity.
  apply gt_or_le; reflexivity.
Qed.

Lemma includes_In (l : list string) (x : string) :
  includes l x = true <-> In x l.
Proof.
  unfold includes. rewrite existsb_exists. split.
  - intros (y & Hy & E). apply String.eqb_eq in E. subst. exact Hy.
  - intros H. exists x. split; [exact H|apply String.eqb_refl].
Qed.

(** X1.  The origin message is pushed exactly when no URL object was
    stored in [origin], and that is when the parameter is missing or the URL
    constructor throws on its value. *)
Theorem origin_required (req : Request) :
  let sp := searchParams (url req) in
  exists p, getParams P req = Ok p /\
    (In msg_origin (errors p) <-> origin p = None) /\
    (origin p = None <->
     get sp "origin" = None \/
     exists v e, get sp "origin" = Some v /\ new_URL P v = Throw e).
Proof.
  cbv zeta. exists (validated P (url req)). split; [apply getParams_eq|].
  cbn [errors origin validated]. rewrite only_origin.
  unfold originValue. rewrite has_get. split.
  - destruct (get (searchParams (url req)) "origin") as [v|]; cbn [ToString].
    + destruct (new_URL P v); simpl; split; intros H;
        try discriminate; try tauto.
    + simpl. tauto.
  - destruct (get (searchParams (url req)) "origin") as [v|]; cbn [ToString].
    + destruct (new_URL P v) as [u|e] eqn:E; split.
      * discriminate.
      * intros [H|(v' & e & H & T)]; [discriminate|].
        injection H as <-. congruence.
      * intros _. right. exists v, e. split; [reflexivity|exact E].
      * reflexivity.
    + split; [left|]; reflexivity.
Qed.

(** X2.  The size message is pushed exactly when neither [width] nor
    [height] ends up truthy; a request with neither parameter gets it. *)
Theorem size_required (req : Request) :
  let sp := searchParams (url req) in
  exists p, getParams P req = Ok p /\
    (In msg_size (errors p) <->
     truthy (width p) = false /\ truthy (height p) = false) /\
    (get sp "width" = None -> get sp "height" = None ->
     In msg_size (errors p)).
Proof.
  cbv zeta. exists (validated P (url req)). split; [apply getParams_eq|].
  cbn [errors width height validated]. rewrite only_size.
  assert (E : forall w h, In msg_size (sizeErrors w h) <->
                          truthy w = false /\ truthy h = false).
  { intros w h. unfold sizeErrors.
    destruct (truthy w), (truthy h); simpl; intuition discriminate. }
  split; [apply E|].
  intros Hw Hh. apply E.
  rewrite !intValue_absent by assumption. split; reflexivity.
Qed.

(** X3.  The mode message is pushed unless [mode] is present and, in lower
    case, one of fill, fit and limit. *)
Theorem mode_required (req : Request) :
  let sp := searchParams (url req) in
  exists p, getParams P req = Ok p /\
    (In msg_mode (errors p) <->
     ~ exists v, get sp "mode" = Some v /\
                 (toLowerCase v = "fill" \/ toLowerCase v = "fit" \/
                  toLowerCase v = "limit")).
Proof.
  cbv zeta. exists (validated P (url req)). split; [apply getParams_eq|].
  cbn [errors validated]. rewrite only_mode. unfold modeErrors, modeValue.
  destruct (get (searchParams (url req)) "mode") as [v|].
  - destruct (includes VALID_MODES (toLowerCase v)) eqn:I; simpl.
    + apply includes_In in I. simpl in I. split; [intros []|].
      intros H. apply H. exists v. split; [reflexivity|]. intuition congruence.
    + split; [|intros _; left; reflexivity].
      intros _ (v' & [= <-] & H).
      assert (T : includes VALID_MODES (toLowerCase v) = true).
      { apply includes_In. simpl. intuition congruence. }
      congruence.
  - simpl. split; [|intros _; left; reflexivity].
    intros _ (v & H & _). discriminate H.
Qed.

End ValidatorContract.

(** X4.  A [quality] that parses to an integer is stored, and is rejected
    exactly when it is below 40 or above 100; without the parameter the
    quality is 90 and nothing is pushed for it. *)
Theorem quality_range (P : Platform) (req : Request) :
  let sp := searchParams (url req) in
  (forall v z,
      URLSearchParams.get sp "quality" = Some v -> parseInt v 10 = ofZ z ->
      exists p, getParams P req = Ok p /\ quality p = ofZ z /\
                (In msg_quality (errors p) <-> (z < 40 \/ 100 < z))) /\
  (URLSearchParams.get sp "quality" = None ->
   exists p, getParams P req = Ok p /\ quality p = ofZ 90 /\
             ~ In msg_quality (errors p)).
Proof.
  cbv zeta. split.
  - intros v z Hv Hz. exists (validated P (url req)).
    split; [apply getParams_eq|]. cbn [errors quality validated].
    rewrite only_quality. split.
    + erewrite intValue_present by eassumption. exact Hz.
    + unfold qualityErrors. rewrite has_get, Hv. cbn [ToString]. cbv zeta.
      rewrite Hz, gt_ofZ, lt_ofZ.
      destruct (Z.ltb_spec 100 z), (Z.ltb_spec z 40); simpl; split;
        intros; try lia; try tauto.
  - intros Hv. exists (validated P (url req)).
    split; [apply getParams_eq|]. cbn [errors quality validated].
    rewrite only_quality. split.
    + apply intValue_absent. exact Hv.
    + unfold qualityErrors. rewrite has_get, Hv. simpl. tauto.
Qed.

(** [quality=150]. *)
Lemma quality_range_witness :
  let req := example_request "GET" "/a.png" (valid_query [("quality", "150")]) in
  exists p, getParams example_platform req = Ok p /\ quality p = ofZ 150 /\
            (In msg_quality (errors p) <-> (150 < 40 \/ 100 < 150)).
Proof.
  cbv zeta.
  apply (proj1 (@quality_range example_platform
                  (example_request "GET" "/a.png"
                     (valid_query [("quality", "150")]))) "150" 150);
    reflexivity.
Defined.

(** X5.  A [width] (or [height]) that parses to an integer is stored, and
    is rejected exactly when it is negative. *)
Theorem negative_size_rejected (P : Platform) (req : Request) :
  let sp := searchParams (url req) in
  (forall v z,
      URLSearchParams.get sp "width" = Some v -> parseInt v 10 = ofZ z ->
      exists p, getParams P req = Ok p /\ width p = ofZ z /\
                (In msg_width (errors p) <-> z < 0)) /\
  (forall v z,
      URLSearchParams.get sp "height" = Some v -> parseInt v 10 = ofZ z ->
      exists p, getParams P req = Ok p /\ height p = ofZ z /\
                (In msg_height (errors p) <-> z < 0)).
Proof.
  cbv zeta. split; intros v z Hv Hz; exists (validated P (url req));
    (split; [apply getParams_eq|]); cbn [errors width height validated].
  - rewrite only_width. split.
    + erewrite intValue_present by eassumption. exact Hz.
    + unfold nonNegativeErrors. rewrite has_get, Hv. cbn [ToString].
      rewrite Hz, gt_ofZ.
      destruct (Z.ltb_spec (-1) z); simpl; split; intros; try lia; try tauto.
  - rewrite only_height. split.
    + erewrite intValue_present by eassumption. exact Hz.
    + unfold nonNegativeErrors. rewrite has_get, Hv. cbn [ToString].
      rewrite Hz, gt_ofZ.
      destruct (Z.ltb_spec (-1) z); simpl; split; intros; try lia; try tauto.
Qed.

(** [width=-5] and [height=20]. *)
Lemma negative_size_rejected_witness :
  let req := example_request "GET" "/a.png"
               [("width", "-5"); ("height", "20")] in
  (exists p, getParams example_platform req = Ok p /\ width p = ofZ (-5) /\
             (In msg_width (errors p) <-> -5 < 0)) /\
  (exists p, getParams example_platform req = Ok p /\ height p = ofZ 20 /\
             (In msg_height (errors p) <-> 20 < 0)).
Proof.
  cbv zeta.
  destruct (@negative_size_rejected example_platform
              (example_request "GET" "/a.png"
                 [("width", "-5"); ("height", "20")]))
    as [Hw Hh].
  split.
  - apply (Hw "-5" (-5)); reflexivity.
  - apply (Hh "20" 20); reflexivity.
Defined.

(** X6.  [dx], [dy] and [scale] are rejected exactly when they are present
    and do not parse: every number passes, also a scale of zero, a negative
    scale or one above 10. *)
Theorem offsets_and_scale_rejected_iff (P : Platform) (req : Request) :
  let sp := searchParams (url req) in
  exists p, getParams P req = Ok p /\
    (In msg_dx (errors p) <->
     exists v, URLSearchParams.get sp "dx" = Some v /\ parseFloat v = NaN) /\
    (In msg_dy (errors p) <->
     exists v, URLSearchParams.get sp "dy" = Some v /\ parseFloat v = NaN) /\
    (In msg_scale (errors p) <->
     exists v, URLSearchParams.get sp "scale" = Some v /\ parseFloat v = NaN).
Proof.
  cbv zeta. exists (validated P (url req)). split; [apply getParams_eq|].
  cbn [errors validated]. rewrite only_dx, only_dy, only_scale.
  unfold offsetErrors, scaleErrors. rewrite !has_get. cbv zeta.
  repeat split;
    match goal with
    | |- context [URLSearchParams.get ?s ?n] => destruct (URLSearchParams.get s n) as [v|] eqn:G
    end; cbn [ToString];
    rewrite ?offset_check, ?scale_check, ?negb_involutive;
    try (destruct (parseFloat v) eqn:F; simpl; try tauto;
         try (intros _; exists v; split; reflexivity || assumption);
         try (intros (v' & [= <-] & N); congruence));
    try (simpl; tauto);
    try (intros (v' & N & _); discriminate N).
Qed.


(** * Further properties of the helpers *)

Lemma lowerChar_word (c : ascii) : isWordChar (lowerChar c) = isWordChar c.
Proof. destruct c as [[] [] [] [] [] [] [] []]; reflexivity. Qed.

Lemma lowerChar_idem (c : ascii) : lowerChar (lowerChar c) = lowerChar c.
Proof. destruct c as [[] [] [] [] [] [] [] []]; reflexivity. Qed.

Lemma allWord_toLowerCase (s : string) : allWord (toLowerCase s) = allWord s.
Proof.
  induction s as [|c r IH]; [reflexivity|]. simpl.
  rewrite lowerChar_word, IH. reflexivity.
Qed.

Lemma toLowerCase_idem (s : string) : toLowerCase (toLowerCase s) = toLowerCase s.
Proof.
  induction s as [|c r IH]; [reflexivity|]. simpl.
  rewrite lowerChar_idem, IH. reflexivity.
Qed.

Lemma allWord_dot (stem e : string) :
  allWord (stem ++ String "." e) = false.
Proof.
  induction stem as [|c r IH]; [reflexivity|]. simpl. rewrite IH.
  apply andb_false_r.
Qed.

Lemma extMatch_sound (s e : string) :
  extMatch s = Some e ->
  e <> "" /\ allWord e = true /\ exists stem, s = stem ++ String "." e.
Proof.
  induction s as [|c r IH]; [discriminate|]. simpl.
  destruct (N.eqb_spec (code c) 46) as [Hc|Hc]; simpl.
  - destruct (String.eqb_spec r "") as [Hr|Hr]; simpl.
    + subst r. discriminate.
    + destruct (allWord r) eqn:Hw.
      * intros [= <-]. repeat split; try assumption.
        exists "". simpl. f_equal.
        unfold code in Hc. rewrite <- (ascii_N_embedding c), Hc. reflexivity.
      * intros H. destruct (IH H) as (? & ? & stem & ->).
        repeat split; try assumption. exists (String c stem). reflexivity.
  - intros H. destruct (IH H) as (? & ? & stem & ->).
    repeat split; try assumption. exists (String c stem). reflexivity.
Qed.

Lemma extMatch_complete (stem e : string) :
  e <> "" -> allWord e = true -> extMatch (stem ++ String "." e) = Some e.
Proof.
  intros Hn Hw. induction stem as [|c r IH]; simpl.
  - apply String.eqb_neq in Hn. rewrite Hn, Hw. reflexivity.
  - rewrite allWord_dot, !andb_false_r. exact IH.
Qed.

(** X7.  [getUrlExt] returns the text after the last dot of the path, in
    lower case, when that text is one or more word characters and ends the
    path, and null otherwise. *)
Theorem getUrlExt_iff (u : URL) (x : string) :
  getUrlExt u = Some x <->
  exists stem e,
    pathname u = stem ++ String "." e /\ e <> "" /\ allWord e = true /\
    x = toLowerCase e.
Proof.
  unfold getUrlExt. split.
  - destruct (extMatch (pathname u)) as [e|] eqn:E; [|discriminate].
    intros [= <-]. destruct (extMatch_sound _ E) as (Hn & Hw & stem & Hs).
    exists stem, e. repeat split; assumption.
  - intros (stem & e & Hp & Hn & Hw & ->).
    rewrite Hp, (extMatch_complete stem Hn Hw). reflexivity.
Qed.

(** X8.  What [getUrlExt] returns is never empty, is made of word
    characters, and is already in lower case. *)
Theorem getUrlExt_shape (u : URL) (x : string) :
  getUrlExt u = Some x ->
  x <> "" /\ allWord x = true /\ toLowerCase x = x.
Proof.
  unfold getUrlExt. destruct (extMatch (pathname u)) as [e|] eqn:E; [|discriminate].
  intros [= <-]. destruct (extMatch_sound _ E) as (Hn & Hw & _).
  split; [|split].
  - destruct e; [congruence|discriminate].
  - rewrite allWord_toLowerCase. exact Hw.
  - apply toLowerCase_idem.
Qed.

(** The path [/photos/2019.summer/Cat.JPEG]. *)
Lemma getUrlExt_shape_witness :
  "jpeg" <> "" /\ allWord "jpeg" = true /\ toLowerCase "jpeg" = "jpeg".
Proof.
  apply (@getUrlExt_shape
           (url (example_request "GET" "/photos/2019.summer/Cat.JPEG" []))).
  reflexivity.
Defined.

Lemma length_append (a b : string) :
  String.length (a ++ b) = (String.length a + String.length b)%nat.
Proof. induction a as [|c r IH]; simpl; [reflexivity|]. rewrite IH. reflexivity. Qed.

Lemma append_same_suffix (a b s : string) : a ++ s = b ++ s -> a = b.
Proof.
  revert b. induction a as [|c r IH]; intros b H.
  - destruct b as [|d b']; [reflexivity|]. exfalso.
    apply (f_equal String.length) in H. simpl in H.
    rewrite length_append in H. lia.
  - destruct b as [|d b'].
    + exfalso. apply (f_equal String.length) in H. simpl in H.
      rewrite length_append in H. lia.
    + simpl in H. injection H as -> H. f_equal. apply IH. exact H.
Qed.

Lemma append_same_prefix (s a b : string) : s ++ a = s ++ b -> a = b.
Proof.
  induction s as [|c r IH]; simpl; intros H; [exact H|].
  injection H as H. exact (IH H).
Qed.

Lemma msg_format_inj (a b : string) : msg_format a = msg_format b -> a = b.
Proof.
  unfold msg_format. intros H.
  apply append_same_prefix in H. eapply append_same_suffix. exact H.
Qed.

(** X9.  The extension message names the offending extension; it is pushed
    exactly when the path has an extension that is not png, jpg or jpeg, and
    a path without extension leaves [format] empty without a message. *)
Theorem format_checked (P : Platform) (req : Request) :
  exists p, getParams P req = Ok p /\
    (forall ext,
        In (msg_format ext) (errors p) <->
        getUrlExt (url req) = Some ext /\ ~ In ext VALID_FORMATS) /\
    (getUrlExt (url req) = None -> format p = "").
Proof.
  exists (validated P (url req)). split; [apply getParams_eq|].
  cbn [errors format validated]. split.
  - intros ext. rewrite only_format. unfold formatErrors.
    destruct (getUrlExt (url req)) as [f|] eqn:E.
    + destruct (getUrlExt_shape _ E) as (Hn & _).
      apply String.eqb_neq in Hn. rewrite Hn.
      destruct (includes VALID_FORMATS f) eqn:I; simpl.
      * apply includes_In in I. split; [intros []|].
        intros ([= <-] & H). contradiction.
      * split.
        -- intros [H|[]]. apply msg_format_inj in H. subst ext.
           split; [reflexivity|]. intros H.
           apply (proj2 (includes_In VALID_FORMATS f)) in H. congruence.
        -- intros ([= <-] & _). left. reflexivity.
    + simpl. split; [intros []|]. intros (H & _). discriminate H.
  - intros E. unfold formatValue. rewrite E. reflexivity.
Qed.

Lemma length_doubleChars (s : string) :
  String.length (doubleChars s) = (2 * String.length s)%nat.
Proof. induction s as [|c r IH]; simpl; [reflexivity|]. rewrite IH. lia. Qed.

Lemma getColor_None_iff (s : string) :
  getColor s = None <-> String.length s <> 3%nat /\ String.length s <> 6%nat.
Proof.
  unfold getColor.
  destruct (Nat.eqb_spec (String.length s) 3) as [H3|H3].
  - rewrite length_doubleChars, H3. simpl.
    rewrite !strictEquals_NaN. split; [discriminate|]. intros [H _]. contradiction.
  - destruct (Nat.eqb_spec (String.length s) 6) as [H6|H6].
    + rewrite getColor_loop_some. split; [discriminate|]. intros [_ H]. contradiction.
    + split; [intros _; split; assumption|reflexivity].
Qed.

(** X10.  [getColor] accepts exactly the strings of three and of six code
    units, whatever they contain.  The colour of a three-digit string is
    decided by its first digit and that of a six-digit string by its first
    two: the same entry three times. *)
Theorem getColor_accepts (s : string) :
  (getColor s = None <->
   String.length s <> 3%nat /\ String.length s <> 6%nat) /\
  (forall a b c,
      s = String a (String b (String c "")) ->
      getColor s = Some (repeat (parseInt (String a (String a "")) 16) 3)) /\
  (String.length s = 6%nat ->
   getColor s = Some (repeat (parseInt (slice0 2 s) 16) 3)).
Proof.
  split; [apply getColor_None_iff|]. split.
  - intros a b c ->. unfold getColor. simpl. rewrite !strictEquals_NaN.
    reflexivity.
  - apply getColor_six.
Qed.

(** [abc] is read as [aa] three times, [12zz99] as [12] three times. *)
Lemma getColor_accepts_witness :
  getColor "abc" = Some [ofZ 170; ofZ 170; ofZ 170] /\
  getColor "12zz99" = Some [ofZ 18; ofZ 18; ofZ 18].
Proof.
  destruct (getColor_accepts "abc") as (_ & H3 & _).
  destruct (getColor_accepts "12zz99") as (_ & _ & H6).
  split.
  - apply (H3 "a"%char "b"%char "c"%char). reflexivity.
  - apply H6. reflexivity.
Defined.

Lemma all_ascii_complete (a : ascii) : In a all_ascii.
Proof.
  unfold all_ascii. rewrite <- (ascii_nat_embedding a).
  apply in_map, in_seq. pose proof (nat_ascii_bounded a). lia.
Qed.

Lemma twoCharEntries_true : twoCharEntries = true.
Proof. vm_compute. reflexivity. Qed.

Lemma parseInt_two_chars (a b : ascii) :
  isColourEntry (parseInt (String a (String b "")) 16) = true.
Proof.
  pose proof twoCharEntries_true as H. unfold twoCharEntries in H.
  rewrite forallb_forall in H. specialize (H a (all_ascii_complete a)).
  rewrite forallb_forall in H. exact (H b (all_ascii_complete b)).
Qed.

Lemma isColourEntry_spec (h : number) :
  isColourEntry h = true ->
  h = NaN \/ exists z, h = ofZ z /\ -15 <= z <= 255.
Proof.
  destruct h as [| | |[n d]];
    [left; reflexivity|discriminate|discriminate|].
  unfold isColourEntry. cbn [Qden Qnum]. intros H. right. exists n.
  apply andb_prop in H. destruct H as [H H2]. apply andb_prop in H.
  destruct H as [H0 H1].
  apply Z.eqb_eq in H0. apply Z.leb_le in H1. apply Z.leb_le in H2.
  split; [|lia]. unfold ofZ, inject_Z. do 2 f_equal. lia.
Qed.

(** X11.  Every entry of a colour [getColor] returns is NaN or an integer
    from -15 to 255: never more than a byte, but not always a byte. *)
Theorem getColor_entries (s : string) (color : list number) (h : number) :
  getColor s = Some color -> In h color ->
  h = NaN \/ exists z, h = ofZ z /\ -15 <= z <= 255.
Proof.
  intros Hc Hin. apply isColourEntry_spec.
  unfold getColor in Hc.
  destruct (String.length _ =? 6)%nat eqn:L; [|discriminate].
  rewrite getColor_loop_some in Hc. injection Hc as <-.
  apply Nat.eqb_eq in L.
  destruct (if (String.length s =? 3)%nat then doubleChars s else s)
    as [|a [|b r]]; try discriminate L.
  assert (E : slice0 2 (String a (String b r)) = String a (String b ""))
    by (unfold slice0; simpl; destruct r; reflexivity).
  rewrite E in Hin.
  destruct Hin as [<-|[<-|[<-|[]]]]; apply parseInt_two_chars.
Qed.

(** [-f-f-f] is accepted, with entries -15. *)
Lemma getColor_entries_witness :
  ofZ (-15) = NaN \/ exists z, ofZ (-15) = ofZ z /\ -15 <= z <= 255.
Proof.
  apply (@getColor_entries "-f-f-f" [ofZ (-15); ofZ (-15); ofZ (-15)]).
  - reflexivity.
  - left. reflexivity.
Defined.

(** X12.  The [bg] message is pushed exactly when [bg] is present and its
    value has, once in lower case, neither 3 nor 6 code units; [bg] in the
    parameter object is then empty, and otherwise it is one entry three
    times. *)
Theorem bg_checked (P : Platform) (req : Request) :
  let sp := searchParams (url req) in
  exists p, getParams P req = Ok p /\
    (In msg_bg (errors p) <->
     exists v, URLSearchParams.get sp "bg" = Some v /\
               String.length (toLowerCase v) <> 3%nat /\
               String.length (toLowerCase v) <> 6%nat) /\
    (bg p = [] \/ exists h, bg p = [h; h; h]) /\
    (In msg_bg (errors p) -> bg p = []).
Proof.
  cbv zeta. exists (validated P (url req)). split; [apply getParams_eq|].
  cbn [errors bg validated]. rewrite only_bg.
  unfold bgErrors, bgValue. rewrite has_get.
  destruct (URLSearchParams.get (searchParams (url req)) "bg") as [v|];
    cbn [ToString].
  - destruct (getColor (toLowerCase v)) as [c|] eqn:G.
    + split; [|split].
      * split; [intros []|]. intros (v' & [= <-] & H3 & H6).
        assert (N : getColor (toLowerCase v) = None)
          by (apply getColor_None_iff; split; assumption).
        congruence.
      * right. eapply getColor_repeats. exact G.
      * intros [].
    + apply getColor_None_iff in G.
      split; [|split].
      * split; [|intros _; left; reflexivity].
        intros _. exists v. split; [reflexivity|exact G].
      * left. reflexivity.
      * reflexivity.
  - split; [|split].
    + split; [intros []|]. intros (v & H & _). discriminate H.
    + left. reflexivity.
    + reflexivity.
Qed.

(** * The validator as a whole *)

Ltac nodup_block :=
  unfold formatErrors, qualityErrors, originErrors, nonNegativeErrors,
    sizeErrors, offsetErrors, scaleErrors, modeErrors, bgErrors;
  cbv zeta;
  repeat match goal with
         | |- context [match ?c with _ => _ end] =>
             lazymatch c with
             | context [match _ with _ => _ end] => fail
             | _ => destruct c
             end
         end;
  first [ apply NoDup_nil
        | apply NoDup_cons; [intros []|apply NoDup_nil] ].

Ltac from_block H :=
  first
    [ apply in_formatErrors in H; destruct H as [? H]
    | apply in_qualityErrors in H
    | apply in_originErrors in H
    | apply in_nonNegativeErrors in H
    | apply in_sizeErrors in H
    | apply in_offsetErrors in H
    | apply in_scaleErrors in H
    | apply in_modeErrors in H
    | apply in_bgErrors in H ].

Ltac disjoint_blocks :=
  let a := fresh "a" in
  let H := fresh "H" in
  let K := fresh "K" in
  intros a H K; from_block H; subst a;
  rewrite ?in_app_iff in K;
  repeat match goal with
         | K' : _ \/ _ |- _ => destruct K' as [K'|K']
         end;
  match goal with
  | K' : In _ _ |- _ => foreign K'
  end.

(** X13.  No message occurs twice in [errors]: each block pushes at most
    one, and the messages of different blocks are different. *)
Theorem errors_NoDup (P : Platform) (req : Request) :
  exists p, getParams P req = Ok p /\ NoDup (errors p).
Proof.
  exists (validated P (url req)). split; [apply getParams_eq|].
  cbn [errors validated]. unfold allErrors. cbv zeta.
  repeat (apply NoDup_app; [nodup_block| |disjoint_blocks]).
  nodup_block.
Qed.

Lemma app_nil_iff (A : Type) (l l' : list A) :
  (l ++ l')%list = [] <-> l = [] /\ l' = [].
Proof.
  split; [apply app_eq_nil|]. intros [-> ->]. reflexivity.
Qed.

Lemma formatErrors_nil (u : URL) :
  formatErrors u = [] <->
  match getUrlExt u with Some ext => In ext VALID_FORMATS | None => True end.
Proof.
  unfold formatErrors. destruct (getUrlExt u) as [f|] eqn:E; [|tauto].
  destruct (getUrlExt_shape _ E) as (Hn & _).
  apply String.eqb_neq in Hn. rewrite Hn.
  destruct (includes VALID_FORMATS f) eqn:I; simpl.
  - apply includes_In in I. tauto.
  - split; [discriminate|]. intros H.
    apply (proj2 (includes_In VALID_FORMATS f)) in H. congruence.
Qed.

Lemma qualityErrors_nil (sp : URLSearchParams.t) :
  qualityErrors sp = [] <->
  gt (intValue sp "quality" (ofZ 90)) (ofZ 100) = false /\
  lt (intValue sp "quality" (ofZ 90)) (ofZ 40) = false.
Proof.
  unfold qualityErrors, intValue.
  destruct (URLSearchParams.has sp "quality"); [|split; [split|]; reflexivity].
  cbv zeta.
  destruct (gt _ (ofZ 100)), (lt _ (ofZ 40)); simpl;
    split; try discriminate; try tauto; intros [? ?]; discriminate.
Qed.

Lemma nonNegativeErrors_nil (sp : URLSearchParams.t) (name msg : string) :
  nonNegativeErrors sp name msg = [] <->
  gt (intValue sp name (ofZ 0)) (ofZ (-1)) = true.
Proof.
  unfold nonNegativeErrors, intValue.
  destruct (URLSearchParams.has sp name); [|split; reflexivity].
  destruct (gt _ (ofZ (-1))); simpl; split; try discriminate; reflexivity.
Qed.

Lemma offsetErrors_nil (sp : URLSearchParams.t) (name msg : string) :
  offsetErrors sp name msg = [] <-> isNaN (floatValue sp name (ofZ 0)) = false.
Proof.
  unfold offsetErrors, floatValue.
  destruct (URLSearchParams.has sp name); [|split; reflexivity].
  cbv zeta. rewrite offset_check, negb_involutive.
  destruct (isNaN _); split; try discriminate; reflexivity.
Qed.

Lemma scaleErrors_nil (sp : URLSearchParams.t) :
  scaleErrors sp = [] <-> isNaN (floatValue sp "scale" (ofZ 1)) = false.
Proof.
  unfold scaleErrors, floatValue.
  destruct (URLSearchParams.has sp "scale"); [|split; reflexivity].
  cbv zeta. rewrite scale_check, negb_involutive.
  destruct (isNaN _); split; try discriminate; reflexivity.
Qed.

Lemma sizeErrors_nil (w h : number) :
  sizeErrors w h = [] <-> truthy w = true \/ truthy h = true.
Proof.
  unfold sizeErrors. destruct (truthy w), (truthy h); simpl;
    split; try discriminate; try tauto; intros [?|?]; discriminate.
Qed.

Lemma modeErrors_nil (m : string) : modeErrors m = [] <-> In m VALID_MODES.
Proof.
  unfold modeErrors. destruct (includes VALID_MODES m) eqn:I; simpl.
  - apply includes_In in I. tauto.
  - split; [discriminate|]. intros H.
    apply (proj2 (includes_In VALID_MODES m)) in H. congruence.
Qed.

Lemma originErrors_nil (o : option URL) : originErrors o = [] <-> o <> None.
Proof. destruct o; simpl; split; try discriminate; congruence. Qed.

Lemma bgErrors_nil (sp : URLSearchParams.t) :
  bgErrors sp = [] <->
  match URLSearchParams.get sp "bg" with
  | Some v =>
      String.length (toLowerCase v) = 3%nat \/
      String.length (toLowerCase v) = 6%nat
  | None => True
  end.
Proof.
  unfold bgErrors. rewrite has_get.
  destruct (URLSearchParams.get sp "bg") as [v|]; [|tauto]. cbn [ToString].
  destruct (getColor (toLowerCase v)) eqn:G.
  - split; [|reflexivity]. intros _.
    destruct (Nat.eq_dec (String.length (toLowerCase v)) 3) as [|N3]; [tauto|].
    destruct (Nat.eq_dec (String.length (toLowerCase v)) 6) as [|N6]; [tauto|].
    exfalso.
    assert (getColor (toLowerCase v) = None)
      by (apply getColor_None_iff; split; assumption).
    congruence.
  - apply getColor_None_iff in G.
    split; [discriminate|]. intros [?|?]; tauto.
Qed.

(** X14.  The object [getParams] returns is free of errors exactly when:
    the extension, if any, is png, jpg or jpeg; the quality is neither above
    100 nor below 40 (NaN is neither); [origin] is a URL; width and height
    are above -1 and one of them is truthy; dx, dy and scale are numbers;
    the mode is fill, fit or limit; and [bg], if present, has 3 or 6 code
    units once in lower case. *)
Theorem accepted_iff (P : Platform) (req : Request) :
  exists p, getParams P req = Ok p /\
    (errors p = [] <->
     match getUrlExt (url req) with
     | Some ext => In ext VALID_FORMATS
     | None => True
     end /\
     (gt (quality p) (ofZ 100) = false /\ lt (quality p) (ofZ 40) = false) /\
     origin p <> None /\
     gt (width p) (ofZ (-1)) = true /\
     gt (height p) (ofZ (-1)) = true /\
     (truthy (width p) = true \/ truthy (height p) = true) /\
     isNaN (dx p) = false /\
     isNaN (dy p) = false /\
     isNaN (scale p) = false /\
     In (mode p) VALID_MODES /\
     match URLSearchParams.get (searchParams (url req)) "bg" with
     | Some v =>
         String.length (toLowerCase v) = 3%nat \/
         String.length (toLowerCase v) = 6%nat
     | None => True
     end).
Proof.
  exists (validated P (url req)). split; [apply getParams_eq|].
  cbn [errors quality origin width height dx dy scale mode validated].
  unfold allErrors. cbv zeta.
  rewrite !app_nil_iff.
  rewrite formatErrors_nil, qualityErrors_nil, originErrors_nil,
    !nonNegativeErrors_nil, sizeErrors_nil, !offsetErrors_nil,
    scaleErrors_nil, modeErrors_nil, bgErrors_nil.
  reflexivity.
Qed.

(** [getMimeType] answers [image/png] for png only, [image/jpeg] for
    jpg only, and [application/octet-stream] for everything else,
    undefined included. *)
Lemma getMimeType_values (f : option string) :
  (getMimeType f = "image/png" <-> f = Some "png") /\
  (getMimeType f = "image/jpeg" <-> f = Some "jpg") /\
  (getMimeType f = "application/octet-stream" <->
   f <> Some "png" /\ f <> Some "jpg").
Proof.
  destruct f as [s|]; unfold getMimeType; cbn [ownProperty].
  - destruct (String.eqb_spec "png" s) as [<-|Hp];
      [|destruct (String.eqb_spec "jpg" s) as [<-|Hj]];
      cbn [String.eqb Ascii.eqb Bool.eqb];
      repeat split; intros; try discriminate; try congruence;
      match goal with
      | H : _ /\ _ |- _ => destruct H; congruence
      end.
  - repeat split; discriminate.
Qed.

(** X15.  Lines 45-48 split the engine's output at its last byte: the body
    is everything before it and the content type is chosen by it, png for
    0, jpeg for 1 and octet-stream for any other byte; an empty output gives
    an empty body and octet-stream. *)
Theorem output_split (payload : list byte) (tag : byte) :
  slice_init (payload ++ [tag]) = payload /\
  getMimeType (formatOfTag (slice_last (payload ++ [tag]))) =
    (if Byte.eqb tag "000" then "image/png"
     else if Byte.eqb tag "001" then "image/jpeg"
     else "application/octet-stream") /\
  slice_init [] = [] /\
  getMimeType (formatOfTag (slice_last [])) = "application/octet-stream".
Proof.
  assert (L : (List.length (payload ++ [tag]) - 1 = List.length payload)%nat)
    by (rewrite length_app; simpl; lia).
  unfold slice_init, slice_last. rewrite L.
  split; [|split; [|split; reflexivity]].
  - rewrite firstn_app, Nat.sub_diag, firstn_all. simpl. apply app_nil_r.
  - rewrite skipn_app, Nat.sub_diag, skipn_all. simpl.
    destruct tag; reflexivity.
Qed.

(** * Further properties of the orchestrator *)

(** Splits a goal about [handleRequest P req w] along the paths of the
    handler and rewrites the call into what the path returns. *)
Ltac paths P req w :=
  let Hm := fresh "Hm" in
  let Hr := fresh "Hr" in
  let Hp := fresh "Hp" in
  let He := fresh "He" in
  let Ho := fresh "Ho" in
  let Hw := fresh "Hw" in
  let Hc := fresh "Hc" in
  let Hf := fresh "Hf" in
  let Hi := fresh "Hi" in
  let u := fresh "u" in
  let e := fresh "e" in
  let originRes := fresh "originRes" in
  let output := fresh "output" in
  let hit := fresh "hit" in
  destruct (String.eqb_spec (method req) "GET") as [Hm|Hm];
  [ destruct (cache_lookup (cache w) req) as [hit|] eqn:Hr;
    [ rewrite (@handleRequest_hit P req w hit Hm Hr)
    | pose proof (getParams_eq P req) as Hp;
      destruct (errors (validated P (url req))) eqn:He;
      [ destruct (@valid_origin P req _ Hp He) as [u Ho];
        rewrite (@handleRequest_valid P req w _ u Hm Hr Hp He Ho);
        cbv zeta;
        destruct (wasm_bindgen P) as [[]|e] eqn:Hw;
        [ destruct (cache_lookup (cache w) (new_Request u req))
            as [originRes|] eqn:Hc;
          [ rewrite transform_cached; cbv zeta;
            destruct (process_image P (arrayBuffer originRes)
                        (validated P (url req))) as [output|e] eqn:Hi
          | rewrite transform_fetched;
            destruct (fetch P (new_Request u req)) as [originRes|e] eqn:Hf;
            [ cbv zeta;
              destruct (process_image P (arrayBuffer originRes)
                          (validated P (url req))) as [output|e] eqn:Hi
            | ] ]
        | ]
      | rewrite (@handleRequest_invalid P req w _ Hm Hr Hp);
        [ | rewrite He; discriminate ] ] ]
  | rewrite (@handleRequest_not_GET P req w Hm) ].

Lemma slice_init_app (payload : list byte) (tag : byte) :
  slice_init (payload ++ [tag]) = payload.
Proof.
  unfold slice_init. rewrite length_app. simpl.
  replace (List.length payload + 1 - 1)%nat with (List.length payload) by lia.
  rewrite firstn_app, Nat.sub_diag, firstn_all. simpl. apply app_nil_r.
Qed.

Lemma slice_last_app (payload : list byte) (tag : byte) :
  slice_last (payload ++ [tag]) = [tag].
Proof.
  unfold slice_last. rewrite length_app. simpl.
  replace (List.length payload + 1 - 1)%nat with (List.length payload) by lia.
  rewrite skipn_app, Nat.sub_diag, skipn_all. reflexivity.
Qed.

(** The content type the tag byte selects. *)
Lemma content_type_of_tag (tag : byte) :
  getMimeType (formatOfTag [tag]) =
  if Byte.eqb tag "000" then "image/png"
  else if Byte.eqb tag "001" then "image/jpeg"
  else "application/octet-stream".
Proof. destruct tag; reflexivity. Qed.

(** X16.  The whole success path.  A valid GET request that is in neither
    cache, with an origin that answers and an engine that returns a payload
    followed by a tag, is answered with status 200, the payload as body and
    the content type of the tag; the response is stored under the request
    and the origin response under the origin request, in that order. *)
Theorem fetched_and_transformed (P : Platform) (req : Request) (w : World)
    (p : Params) (u : URL) (originRes : Response) (payload : list byte)
    (tag : byte) :
  method req = "GET" ->
  cache_lookup (cache w) req = None ->
  getParams P req = Ok p -> errors p = [] -> origin p = Some u ->
  cache_lookup (cache w) (new_Request u req) = None ->
  wasm_bindgen P = Ok tt ->
  fetch P (new_Request u req) = Ok originRes ->
  process_image P (arrayBuffer originRes) p = Ok (payload ++ [tag])%list ->
  exists res,
    handleRequest P req w =
      (Ok res,
       {| cache := (new_Request u req, originRes) :: (req, res) :: cache w;
          log := log w ++
                 [CacheMatch req; Validate req;
                  CacheMatch (new_Request u req); WasmInit;
                  Fetch (new_Request u req);
                  ProcessImage (arrayBuffer originRes) p;
                  CachePut req res;
                  CachePut (new_Request u req) originRes] |}) /\
    status res = 200 /\
    body res = BytesBody payload /\
    headers_get "Content-type" res =
      Some (if Byte.eqb tag "000" then "image/png"
            else if Byte.eqb tag "001" then "image/jpeg"
            else "application/octet-stream").
Proof.
  intros Hm Hr Hp He Ho Hc Hw Hf Hi.
  rewrite (@handleRequest_valid P req w p u Hm Hr Hp He Ho). cbv zeta.
  rewrite Hw, Hc, transform_fetched, Hf. cbv zeta. rewrite Hi.
  rewrite slice_init_app, slice_last_app, content_type_of_tag.
  eexists. split.
  - cbn [cache log]. rewrite <- app_assoc. reflexivity.
  - repeat split.
Qed.

(** A request for a png on an empty cache. *)
Lemma fetched_and_transformed_witness :
  let req := example_request "GET" "/a.png" (valid_query []) in
  exists res w',
    handleRequest example_platform req (start []) = (Ok res, w') /\
    status res = 200 /\
    body res = BytesBody ["137"; "080"; "078"; "071"]%byte /\
    headers_get "Content-type" res = Some "image/png".
Proof.
  cbv zeta.
  destruct (@fetched_and_transformed example_platform
              (example_request "GET" "/a.png" (valid_query [])) (start [])
              (validated example_platform
                 (url (example_request "GET" "/a.png" (valid_query []))))
              {| protocol := "https:"; host := "o.example";
                 pathname := "/cat.png"; searchParams := []; hash := "" |}
              {| status := 200;
                 body := BytesBody ["137"; "080"; "078"; "071"]%byte;
                 headers := [("content-type", "image/png")] |}
              ["137"; "080"; "078"; "071"]%byte "000"%byte
              eq_refl eq_refl (getParams_eq _ _) eq_refl eq_refl eq_refl
              eq_refl eq_refl eq_refl)
    as (res & E & S & B & H).
  exists res. eexists. split; [exact E|]. split; [exact S|].
  split; [exact B|exact H].
Defined.

(** X17.  When the origin response is already in the cache it is not
    fetched: the engine is given the cached body and only the transformed
    response is stored. *)
Theorem cached_origin_transformed (P : Platform) (req : Request) (w : World)
    (p : Params) (u : URL) (originRes : Response) (payload : list byte)
    (tag : byte) :
  method req = "GET" ->
  cache_lookup (cache w) req = None ->
  getParams P req = Ok p -> errors p = [] -> origin p = Some u ->
  cache_lookup (cache w) (new_Request u req) = Some originRes ->
  wasm_bindgen P = Ok tt ->
  process_image P (arrayBuffer originRes) p = Ok (payload ++ [tag])%list ->
  exists res,
    handleRequest P req w =
      (Ok res,
       {| cache := (req, res) :: cache w;
          log := log w ++
                 [CacheMatch req; Validate req;
                  CacheMatch (new_Request u req); WasmInit;
                  ProcessImage (arrayBuffer originRes) p;
                  CachePut req res] |}) /\
    status res = 200 /\
    body res = BytesBody payload.
Proof.
  intros Hm Hr Hp He Ho Hc Hw Hi.
  rewrite (@handleRequest_valid P req w p u Hm Hr Hp He Ho). cbv zeta.
  rewrite Hw, Hc, transform_cached. cbv zeta. rewrite Hi.
  rewrite slice_init_app, slice_last_app.
  eexists. split.
  - cbn [cache log]. rewrite <- app_assoc. reflexivity.
  - repeat split.
Qed.

(** The same request when the cache holds the origin image. *)
Lemma cached_origin_transformed_witness :
  let req := example_request "GET" "/a.png" (valid_query []) in
  let u := {| protocol := "https:"; host := "o.example";
              pathname := "/cat.png"; searchParams := []; hash := "" |} in
  let originRes := {| status := 200; body := BytesBody ["001"; "002"]%byte;
                      headers := [] |} in
  exists res w',
    handleRequest example_platform req (start [(new_Request u req, originRes)])
      = (Ok res, w') /\
    fetches (log w') = 0%nat /\
    status res = 200 /\
    body res = BytesBody ["001"; "002"]%byte.
Proof.
  cbv zeta.
  destruct (@cached_origin_transformed example_platform
              (example_request "GET" "/a.png" (valid_query []))
              (start [(new_Request
                         {| protocol := "https:"; host := "o.example";
                            pathname := "/cat.png"; searchParams := [];
                            hash := "" |}
                         (example_request "GET" "/a.png" (valid_query [])),
                       {| status := 200; body := BytesBody ["001"; "002"]%byte;
                          headers := [] |})])
              (validated example_platform
                 (url (example_request "GET" "/a.png" (valid_query []))))
              {| protocol := "https:"; host := "o.example";
                 pathname := "/cat.png"; searchParams := []; hash := "" |}
              {| status := 200; body := BytesBody ["001"; "002"]%byte;
                 headers := [] |}
              ["001"; "002"]%byte "000"%byte
              eq_refl eq_refl (getParams_eq _ _) eq_refl eq_refl eq_refl
              eq_refl eq_refl)
    as (res & E & S & B).
  exists res. eexists. split; [exact E|]. split; [reflexivity|].
  split; [exact S|exact B].
Defined.

(** X18.  A failure of the origin fetch or of the engine is answered with
    status 200 and the failure text as plain-text body, and leaves the
    cache as it was: neither the response nor the origin response is
    stored. *)
Theorem failure_is_200_text (P : Platform) (req : Request) (w : World)
    (p : Params) (u : URL) :
  method req = "GET" ->
  cache_lookup (cache w) req = None ->
  getParams P req = Ok p -> errors p = [] -> origin p = Some u ->
  wasm_bindgen P = Ok tt ->
  (forall e,
      cache_lookup (cache w) (new_Request u req) = None ->
      fetch P (new_Request u req) = Throw e ->
      exists w',
        handleRequest P req w = (Ok (text_response e 200), w') /\
        cache w' = cache w /\
        filter isProcessImage (log w') = filter isProcessImage (log w)) /\
  (forall originRes e,
      cache_lookup (cache w) (new_Request u req) = Some originRes \/
      (cache_lookup (cache w) (new_Request u req) = None /\
       fetch P (new_Request u req) = Ok originRes) ->
      process_image P (arrayBuffer originRes) p = Throw e ->
      exists w',
        handleRequest P req w = (Ok (text_response e 200), w') /\
        cache w' = cache w) /\
  (forall e,
      status (text_response e 200) = 200 /\
      body (text_response e 200) = TextBody e /\
      headers_get "Content-type" (text_response e 200) = Some "text/plain").
Proof.
  intros Hm Hr Hp He Ho Hw.
  rewrite (@handleRequest_valid P req w p u Hm Hr Hp He Ho). cbv zeta.
  rewrite Hw. split; [|split].
  - intros e Hc Hf. rewrite Hc, transform_fetched, Hf.
    eexists. split; [reflexivity|]. split; [reflexivity|].
    cbn [log]. rewrite !filter_app. simpl. rewrite !app_nil_r. reflexivity.
  - intros originRes e [Hc|[Hc Hf]] Hi.
    + rewrite Hc, transform_cached. cbv zeta. rewrite Hi.
      eexists. split; reflexivity.
    + rewrite Hc, transform_fetched, Hf. cbv zeta. rewrite Hi.
      eexists. split; reflexivity.
  - intros e. repeat split.
Qed.

(** The engine that cannot decode, on an empty cache. *)
Lemma failure_is_200_text_witness :
  let req := example_request "GET" "/a.png" (valid_query []) in
  exists w',
    handleRequest failing_engine req (start []) =
      (Ok (text_response "Error: failed to decode image" 200), w') /\
    cache w' = [].
Proof.
  cbv zeta.
  destruct (@failure_is_200_text failing_engine
              (example_request "GET" "/a.png" (valid_query [])) (start [])
              (validated failing_engine
                 (url (example_request "GET" "/a.png" (valid_query []))))
              {| protocol := "https:"; host := "o.example";
                 pathname := "/cat.png"; searchParams := []; hash := "" |}
              eq_refl eq_refl (getParams_eq _ _) eq_refl eq_refl eq_refl)
    as (_ & H & _).
  apply (H {| status := 200;
              body := BytesBody ["137"; "080"; "078"; "071"]%byte;
              headers := [("content-type", "image/png")] |}
           "Error: failed to decode image").
  - right. split; reflexivity.
  - reflexivity.
Defined.

(** X19.  The handler throws only when the initialisation of the wasm
    module fails, and then only for a valid GET request that missed the
    response cache; nothing has been fetched or stored at that point. *)
Theorem throws_only_on_wasm_failure (P : Platform) (req : Request)
    (w : World) (e : string) :
  fst (handleRequest P req w) = Throw e ->
  wasm_bindgen P = Throw e /\
  method req = "GET" /\
  cache_lookup (cache w) req = None /\
  (exists p u,
      getParams P req = Ok p /\ errors p = [] /\ origin p = Some u /\
      log (snd (handleRequest P req w)) =
        (log w ++ [CacheMatch req; Validate req;
                   CacheMatch (new_Request u req); WasmInit])%list) /\
  cache (snd (handleRequest P req w)) = cache w.
Proof.
  paths P req w; cbn [fst snd cache log]; try discriminate.
  intros [= <-]. repeat split; try assumption.
  eexists. eexists. repeat split; eassumption || reflexivity.
Qed.

(** A valid request with a module that does not compile. *)
Lemma throws_only_on_wasm_failure_witness :
  wasm_bindgen failing_wasm = Throw "CompileError: invalid wasm module" /\
  cache (snd (handleRequest failing_wasm
                (example_request "GET" "/a.png" (valid_query []))
                (start []))) = [].
Proof.
  destruct (@throws_only_on_wasm_failure failing_wasm
              (example_request "GET" "/a.png" (valid_query [])) (start [])
              "CompileError: invalid wasm module" eq_refl)
    as (H & _ & _ & _ & C).
  split; [exact H|exact C].
Defined.

Lemma Request_eqb_url (a b : Request) :
  url a <> url b -> Request_eqb a b = false.
Proof.
  intros H. unfold Request_eqb. destruct (Request_eq_dec a b); congruence.
Qed.

(** X20.  A valid GET request that got anything but the failure text is
    answered from the cache the next time: the same response, after one
    cache lookup, without validation, fetch or engine call.  (The origin URL
    is assumed not to be the URL of the request itself.) *)
Theorem repeated_request_is_cached (P : Platform) (req : Request) (w w1 : World)
    (p : Params) (u : URL) (res : Response) :
  method req = "GET" ->
  getParams P req = Ok p -> errors p = [] -> origin p = Some u ->
  u <> url req ->
  handleRequest P req w = (Ok res, w1) ->
  (forall e, res <> text_response e 200) ->
  handleRequest P req w1 =
    (Ok res, {| cache := cache w1; log := log w1 ++ [CacheMatch req] |}).
Proof.
  intros Hm Hp He Ho Hu H Hok.
  rewrite getParams_eq in Hp. injection Hp as <-.
  revert H. paths P req w; intros [= <- <-]; try congruence;
    try (exfalso; eapply Hok; reflexivity);
    apply handleRequest_hit; try assumption; cbn [cache cache_lookup].
  - rewrite Request_eqb_refl. reflexivity.
  - rewrite Request_eqb_url by (cbn [url new_Request]; congruence).
    rewrite Request_eqb_refl. reflexivity.
Qed.

(** The same request twice on an empty cache. *)
Lemma repeated_request_is_cached_witness :
  let req := example_request "GET" "/a.png" (valid_query []) in
  let first := handleRequest example_platform req (start []) in
  fst (handleRequest example_platform req (snd first)) = fst first /\
  log (snd (handleRequest example_platform req (snd first))) =
    (log (snd first) ++ [CacheMatch req])%list.
Proof.
  cbv zeta.
  destruct (handleRequest example_platform
              (example_request "GET" "/a.png" (valid_query [])) (start []))
    as [[res|e] w1] eqn:E; [|vm_compute in E; discriminate E].
  cbn [fst snd].
  rewrite (@repeated_request_is_cached example_platform
             (example_request "GET" "/a.png" (valid_query [])) (start []) w1
             (validated example_platform
                (url (example_request "GET" "/a.png" (valid_query []))))
             {| protocol := "https:"; host := "o.example";
                pathname := "/cat.png"; searchParams := []; hash := "" |}
             res eq_refl (getParams_eq _ _) eq_refl eq_refl).
  - split; reflexivity.
  - vm_compute. discriminate.
  - exact E.
  - vm_compute in E. injection E as <- _. intros e. vm_compute. discriminate.
Defined.


(** X22.  The only request the handler ever fetches is the one it
    synthesises for the origin of a valid GET request, and it fetches it
    only when both the response and the origin response are missing from
    the cache. *)
Theorem fetch_only_origin (P : Platform) (req : Request) (w : World) :
  exists evs,
    log (snd (handleRequest P req w)) = (log w ++ evs)%list /\
    forall r,
      In (Fetch r) evs ->
      method req = "GET" /\
      cache_lookup (cache w) req = None /\
      cache_lookup (cache w) r = None /\
      exists p u,
        getParams P req = Ok p /\ errors p = [] /\ origin p = Some u /\
        r = new_Request u req.
Proof.
  paths P req w; cbn [snd log]; rewrite <- ?app_assoc;
    first [ eexists; split; [reflexivity|]
          | exists []; split; [symmetry; apply app_nil_r|] ];
    intros r Hin; simpl in Hin;
    repeat match goal with
           | H : _ \/ _ |- _ => destruct H as [H|H]
           end;
    try discriminate; try contradiction;
    match goal with
    | H : Fetch _ = Fetch _ |- _ => injection H as <-
    end;
    repeat split; try assumption;
    eexists; eexists; repeat split; eassumption || reflexivity.
Qed.

(** X23.  On a response-cache miss the status is decided by the method and
    the validation alone: 405 for a method other than GET, 400 for a GET
    with validation errors, and 200 for every valid GET, whether the
    transform succeeded or not. *)
Theorem status_by_method_and_validation (P : Platform) (req : Request)
    (w : World) (res : Response) :
  cache_lookup (cache w) req = None ->
  fst (handleRequest P req w) = Ok res ->
  (status res = 405 /\ method req <> "GET") \/
  (status res = 400 /\ method req = "GET" /\
   exists p, getParams P req = Ok p /\ errors p <> []) \/
  (status res = 200 /\ method req = "GET" /\
   exists p, getParams P req = Ok p /\ errors p = []).
Proof.
  intros Hmiss. paths P req w; cbn [fst]; try congruence; intros [= <-].
  all: try (left; split; [reflexivity|assumption]).
  all: try (right; right; split; [reflexivity|]; split; [assumption|];
            eexists; split; [eassumption|assumption]).
  right; left. split; [reflexivity|]. split; [assumption|].
  eexists. split; [eassumption|]. congruence.
Qed.

(** A valid request whose transform fails is still a 200. *)
Lemma status_by_method_and_validation_witness :
  exists res,
    fst (handleRequest failing_engine
           (example_request "GET" "/a.png" (valid_query [])) (start []))
      = Ok res /\
    status res = 200.
Proof.
  eexists. split; [reflexivity|].
  destruct (@status_by_method_and_validation failing_engine
              (example_request "GET" "/a.png" (valid_query [])) (start [])
              _ eq_refl eq_refl) as [[S N]|[[S _]|[S _]]].
  - exfalso. apply N. reflexivity.
  - discriminate S.
  - exact S.
Defined.

(** * Instances *)

(** A request with neither [width] nor [height]. *)
Lemma size_required_witness :
  exists p,
    getParams example_platform (example_request "GET" "/a.png" []) = Ok p /\
    In msg_size (errors p).
Proof.
  destruct (@size_required example_platform (example_request "GET" "/a.png" []))
    as (p & Hp & _ & H).
  exists p. split; [exact Hp|]. apply H; reflexivity.
Defined.

(** A path without extension. *)
Lemma format_checked_witness :
  exists p,
    getParams example_platform (example_request "GET" "/image" []) = Ok p /\
    format p = "".
Proof.
  destruct (@format_checked example_platform (example_request "GET" "/image" []))
    as (p & Hp & _ & H).
  exists p. split; [exact Hp|]. apply H. reflexivity.
Defined.

(** [bg=ab]. *)
Lemma bg_checked_witness :
  exists p,
    getParams example_platform
      (example_request "GET" "/a.png" [("bg", "ab")]) = Ok p /\
    In msg_bg (errors p) /\ bg p = [].
Proof.
  destruct (@bg_checked example_platform
              (example_request "GET" "/a.png" [("bg", "ab")]))
    as (p & Hp & Hin & _ & H).
  assert (I : In msg_bg (errors p)).
  { apply Hin. exists "ab". split; [reflexivity|]. split; discriminate. }
  exists p. split; [exact Hp|]. split; [exact I|]. apply H. exact I.
Defined.


(** The fetch of the first request on an empty cache. *)
Lemma fetch_only_origin_witness :
  let req := example_request "GET" "/a.png" (valid_query []) in
  let originReq :=
    new_Request {| protocol := "https:"; host := "o.example";
                   pathname := "/cat.png"; searchParams := []; hash := "" |}
                req in
  In (Fetch originReq)
     (log (snd (handleRequest example_platform req (start [])))) /\
  exists p u,
    getParams example_platform req = Ok p /\ errors p = [] /\
    origin p = Some u /\ originReq = new_Request u req.
Proof.
  cbv zeta. split; [vm_compute; tauto|].
  destruct (@fetch_only_origin example_platform
              (example_request "GET" "/a.png" (valid_query [])) (start []))
    as (evs & Hlog & H).
  cbn [start log app] in Hlog. subst evs.
  refine (proj2 (proj2 (proj2 (H _ _)))).
  vm_compute. tauto.
Defined.
